(** * ffio.py: the Python session wrapper of pyFFmpeg, embedded in Rocq

    The file follows [src/ffio/ffio.py].  The class [FFIO] becomes a record of
    its instance attributes; its methods become functions in a small state and
    exception monad over the pair (session, native world).  The native library
    [libinterfaceAPI.so] is reached through ctypes only: it is a parameter of
    the development (a [Gateway]), and every call that the wrapper makes into
    it is logged, so that statements such as "the gateway is not invoked" or
    "the handle is deleted twice" can be written down. *)

From Stdlib Require Import ZArith List String Ascii Bool Lia.
From Stdlib Require Import Strings.Byte.
Import ListNotations.
Open Scope string_scope.
Open Scope list_scope.
Open Scope Z_scope.

(** ** ctypes data *)

(** Conversion of a Python int to a [c_int] argument: ctypes does no overflow
    check and keeps the low 32 bits, read as a signed number. *)
Definition to_c_int (z : Z) : Z := (z + 2 ^ 31) mod 2 ^ 32 - 2 ^ 31.

(** [class CFFIO(Structure)], lines 13-26. *)
Module CFFIO.
Record t := mk {
  ffio_state         : Z;
  ffio_mode          : Z;
  frame_seq          : Z;
  hw_enabled         : bool;
  shm_enabled        : bool;
  shm_fd             : Z;
  shm_size           : Z;
  video_stream_index : Z;
  image_width        : Z;
  image_height       : Z;
  image_byte_size    : Z
}.
End CFFIO.

(** [class CCodecParams(Structure)], lines 29-54. *)
Module CCodecParams.
Record t := mk {
  width    : Z;
  height   : Z;
  bitrate  : Z;
  fps      : Z;
  gop      : Z;
  b_frames : Z;
  profile  : string;
  preset   : string;
  tune     : string;
  pix_fmt  : string;
  format   : string
}.

(** [CCodecParams()]: a ctypes structure built without arguments is zeroed. *)
Definition default : t := mk 0 0 0 0 0 0 "" "" "" "" "".
End CCodecParams.

(** ** Python values and exceptions *)

(** A numpy array of dtype uint8: its shape and its buffer in C order. *)
Record ndarray := mk_ndarray { nd_shape : list Z; nd_data : list byte }.

(** A PIL image: mode, (width, height) and the pixel buffer. *)
Record pil_image := mk_image { im_mode : string; im_size : Z * Z; im_data : list byte }.

Inductive py_value :=
| PyNone
| PyBool    (b : bool)
| PyInt     (z : Z)
| PyBytes   (bs : list byte)
| PyStr     (s : string)
| PyNdarray (a : ndarray)
| PyImage   (i : pil_image)
| PyOther.

Inductive py_exn :=
| AttributeError (attr : string)
| ValueError
| cv2_error.

Inductive result (A : Type) :=
| Return (a : A)
| Raise  (e : py_exn).
Arguments Return {A} a.
Arguments Raise {A} e.

(** ** The image libraries used by [decode_one_frame] *)

(** [np.frombuffer(ret, dtype=np.uint8)] *)
Definition np_frombuffer (bs : list byte) : ndarray :=
  mk_ndarray [Z.of_nat (List.length bs)] bs.

Definition prod_known (shape : list Z) : Z :=
  fold_right (fun d acc => if d <? 0 then acc else d * acc) 1 shape.

Definition count_unknown (shape : list Z) : nat :=
  List.length (filter (fun d => d <? 0) shape).

(** [np.reshape(a, shape)]: the sizes must agree; one negative entry stands for
    the dimension to be inferred. *)
Definition np_reshape (a : ndarray) (shape : list Z) : result ndarray :=
  let size  := Z.of_nat (List.length (nd_data a)) in
  let known := prod_known shape in
  match count_unknown shape with
  | O => if size =? known then Return (mk_ndarray shape (nd_data a))
         else Raise ValueError
  | S O => if (known =? 0) || negb (size mod known =? 0) then Raise ValueError
           else Return (mk_ndarray
                          (map (fun d => if d <? 0 then size / known else d) shape)
                          (nd_data a))
  | _ => Raise ValueError
  end.

(** [ndarray.tobytes()] *)
Definition tobytes (a : ndarray) : list byte := nd_data a.

(** [Image.frombytes("RGB", (w, h), data)]: negative sizes and short buffers are
    refused, an image with an empty side has no pixels, and the raw decoder
    reads the first [w*h*3] bytes. *)
Definition Image_frombytes (size : Z * Z) (data : list byte) : result pil_image :=
  let '(w, h) := size in
  if (w <? 0) || (h <? 0) then Raise ValueError
  else if (w =? 0) || (h =? 0) then Return (mk_image "RGB" size [])
  else if Z.of_nat (List.length data) <? w * h * 3 then Raise ValueError
  else Return (mk_image "RGB" size (firstn (Z.to_nat (w * h * 3)) data)).

(** The channel reorder of [cv2.COLOR_RGB2BGR] on a buffer of 3-byte pixels. *)
Fixpoint swap_rb (bs : list byte) : list byte :=
  match bs with
  | r :: g :: b :: rest => b :: g :: r :: swap_rb rest
  | tail => tail
  end.

(** [cv2.cvtColor(frame, cv2.COLOR_RGB2BGR)]: an empty source is refused. *)
Definition cv2_cvtColor_RGB2BGR (a : ndarray) : result ndarray :=
  match nd_data a with
  | [] => Raise cv2_error
  | _ => Return (mk_ndarray (nd_shape a) (swap_rb (nd_data a)))
  end.

(** [base64.b64encode(...).decode()] *)
Definition b64_alphabet : list ascii :=
  list_ascii_of_string
    "ABCDEFGHIJKLMNOPQRSTUVWXYZabcdefghijklmnopqrstuvwxyz0123456789+/".

Definition b64_char (n : N) : ascii :=
  nth (N.to_nat n) b64_alphabet "="%char.

Fixpoint b64encode (bs : list byte) : string :=
  match bs with
  | [] => ""
  | [a] =>
      let x := Byte.to_N a in
      String (b64_char (x / 4))
        (String (b64_char (x mod 4 * 16)) "==")
  | [a; b] =>
      let x := Byte.to_N a in
      let y := Byte.to_N b in
      String (b64_char (x / 4))
        (String (b64_char (x mod 4 * 16 + y / 16))
           (String (b64_char (y mod 16 * 4)) "="))
  | a :: b :: c :: rest =>
      let x := Byte.to_N a in
      let y := Byte.to_N b in
      let z := Byte.to_N c in
      String (b64_char (x / 4))
        (String (b64_char (x mod 4 * 16 + y / 16))
           (String (b64_char (y mod 16 * 4 + z / 64))
              (String (b64_char (z mod 64)) (b64encode rest))))
  end%N.


(** ** The native library behind ctypes *)

(** The arguments of [api_initFFIO] (lines 62-67), after the handle. *)
Record InitArgs := mk_init_args {
  ia_mode         : Z;
  ia_url          : string;
  ia_hw_enabled   : bool;
  ia_hw_device    : string;
  ia_shm_enabled  : bool;
  ia_shm_name     : string;
  ia_shm_size     : Z;
  ia_shm_offset   : Z;
  ia_codec_params : CCodecParams.t
}.

(** The calls into [c_lib], in the order the wrapper makes them. *)
Inductive Call :=
| Call_newFFIO
| Call_initFFIO (args : InitArgs)
| Call_finalizeFFIO
| Call_deleteFFIO
| Call_decodeOneFrame
| Call_decodeOneFrameToShm (offset : Z)
| Call_encodeOneFrame (rgb : list byte)
| Call_encodeOneFrameFromShm (offset : Z).

Definition is_delete (c : Call) : bool :=
  match c with Call_deleteFFIO => true | _ => false end.

(** What lives behind [_c_ffio_ptr]: the struct that Python reads through
    [.contents], and whatever else the library keeps (stream, codec contexts,
    shared memory), of a type [G] that the wrapper never looks at. *)
Record Native (G : Type) := mk_native { hidden : G; contents : CFFIO.t }.
Arguments mk_native {G} hidden contents.
Arguments hidden {G} n.
Arguments contents {G} n.

(** The library itself.  [codec_params] is passed to [api_initFFIO] by
    reference, so that call may write to it. *)
Record Gateway (G : Type) := mk_gateway {
  gw_newFFIO               : G -> Native G;
  gw_initFFIO              : InitArgs -> Native G -> Native G * CCodecParams.t;
  gw_finalizeFFIO          : Native G -> Native G;
  gw_deleteFFIO            : Native G -> Native G;
  gw_decodeOneFrame        : Native G -> py_value * Native G;
  gw_decodeOneFrameToShm   : Z -> Native G -> bool * Native G;
  gw_encodeOneFrame        : list byte -> Native G -> Z * Native G;
  gw_encodeOneFrameFromShm : Z -> Native G -> bool * Native G
}.
Arguments gw_newFFIO {G} g.
Arguments gw_initFFIO {G} g.
Arguments gw_finalizeFFIO {G} g.
Arguments gw_deleteFFIO {G} g.
Arguments gw_decodeOneFrame {G} g.
Arguments gw_decodeOneFrameToShm {G} g.
Arguments gw_encodeOneFrame {G} g.
Arguments gw_encodeOneFrameFromShm {G} g.

(** The native side of one session, with the log of the calls made so far.
    ctypes keeps no track of a deleted handle: after [api_deleteFFIO] the
    wrapper still holds the pointer, [.contents] reads the struct as the
    library left it, and a later call passes the same pointer again. *)
Record World (G : Type) := mk_world { native : Native G; calls : list Call }.
Arguments mk_world {G} native calls.
Arguments native {G} w.
Arguments calls {G} w.

(** How often the handle has been handed to [api_deleteFFIO]. *)
Definition deletes {G} (w : World G) : nat :=
  List.length (filter is_delete (calls w)).

Definition double_free {G} (w : World G) : Prop := (2 <= deletes w)%nat.

(** ** [class FFIO], lines 86-96

    An attribute that [__init__] may leave unbound is an [option]: reading it
    while it is [None] raises [AttributeError]. *)
Record FFIO := mk_FFIO {
  target_url   : string;
  mode         : Z;
  frame_seq_py : Z;
  shm_enabled  : bool;
  width        : option Z;
  height       : option Z;
  codec_params : CCodecParams.t
}.

Definition set_frame_seq_py (v : Z) (s : FFIO) : FFIO :=
  mk_FFIO (target_url s) (mode s) v (shm_enabled s) (width s) (height s)
          (codec_params s).
Definition set_width (v : Z) (s : FFIO) : FFIO :=
  mk_FFIO (target_url s) (mode s) (frame_seq_py s) (shm_enabled s) (Some v)
          (height s) (codec_params s).
Definition set_height (v : Z) (s : FFIO) : FFIO :=
  mk_FFIO (target_url s) (mode s) (frame_seq_py s) (shm_enabled s) (width s)
          (Some v) (codec_params s).

(** ** The monad of the methods: state (session and world) and exceptions *)

Definition State (G : Type) : Type := FFIO * World G.

Definition Py (G A : Type) : Type := State G -> result A * State G.

Definition ret {G A} (a : A) : Py G A := fun st => (Return a, st).

Definition bind {G A B} (m : Py G A) (k : A -> Py G B) : Py G B :=
  fun st =>
    match m st with
    | (Return a, st') => k a st'
    | (Raise e, st')  => (Raise e, st')
    end.

Definition lift {G A} (r : result A) : Py G A := fun st => (r, st).

(** A computation that reads [self] and calls the image libraries, but leaves
    the session and the native side alone. *)
Definition preserves_state {G A} (m : Py G A) : Prop :=
  forall st, snd (m st) = st.

Declare Scope py_scope.
Delimit Scope py_scope with py.
Notation "x <- m ;; k" := (bind m (fun x => k))
  (at level 61, m at next level, right associativity) : py_scope.
Notation "m ;; k" := (bind m (fun _ => k))
  (at level 61, right associativity) : py_scope.
Open Scope py_scope.

(** Reading and writing [self]. *)
Definition upd_self {G} (f : FFIO -> FFIO) : Py G unit :=
  fun st => (Return tt, (f (fst st), snd st)).

Definition get_attr {G} (name : string) (f : FFIO -> option Z) : Py G Z :=
  fun st =>
    match f (fst st) with
    | Some v => (Return v, st)
    | None   => (Raise (AttributeError name), st)
    end.

(** A call into the library: it is logged, and the native side moves on. *)
Definition native_call {G A} (c : Call) (f : Native G -> A * Native G) : Py G A :=
  fun st =>
    let '(s, w) := st in
    let '(a, n) := f (native w) in
    (Return a, (s, mk_world n (calls w ++ [c]))).

Section Methods.

Context {G : Type} (gw : Gateway G).

(** [cv2.imencode('.jpg', image)[1]]: the JPEG compressor of OpenCV, taken as
    given; it yields the compressed bytes or raises. *)
Variable imencode_jpg : ndarray -> result (list byte).

(** *** The bindings of [c_lib], lines 57-83 *)

Definition api_finalizeFFIO : Py G unit :=
  native_call Call_finalizeFFIO (fun n => (tt, gw_finalizeFFIO gw n)).

Definition api_deleteFFIO : Py G unit :=
  native_call Call_deleteFFIO (fun n => (tt, gw_deleteFFIO gw n)).

Definition api_decodeOneFrame : Py G py_value :=
  native_call Call_decodeOneFrame (gw_decodeOneFrame gw).

Definition api_decodeOneFrameToShm (offset : Z) : Py G bool :=
  native_call (Call_decodeOneFrameToShm (to_c_int offset))
              (gw_decodeOneFrameToShm gw (to_c_int offset)).

Definition api_encodeOneFrame (rgb : list byte) : Py G Z :=
  native_call (Call_encodeOneFrame rgb) (gw_encodeOneFrame gw rgb).

Definition api_encodeOneFrameFromShm (offset : Z) : Py G bool :=
  native_call (Call_encodeOneFrameFromShm (to_c_int offset))
              (gw_encodeOneFrameFromShm gw (to_c_int offset)).

(** *** [FFIO.__init__], lines 98-136

    The timing and the two [print]s are left out.  [g] is the state of the
    library before the session exists. *)

(** What is passed to [api_initFFIO], lines 109-124. *)
Definition init_args (target_url : string) (mode : Z) (hw_enabled : bool)
           (shm_name : option string) (shm_size shm_offset : Z)
           (cp : CCodecParams.t) : InitArgs :=
  match shm_name with
  | None =>
      mk_init_args (to_c_int mode) target_url hw_enabled "cuda"
                   false "" 0 0 cp
  | Some name =>
      mk_init_args (to_c_int mode) target_url hw_enabled "cuda"
                   true name (to_c_int shm_size) (to_c_int shm_offset) cp
  end.

Definition __init__ (target_url : string) (mode : Z) (hw_enabled : bool)
           (shm_name : option string) (shm_size shm_offset : Z)
           (codec_params : option CCodecParams.t) (g : G) : State G :=
  let cp0 := match codec_params with
             | Some cp => cp
             | None => CCodecParams.default
             end in
  (* self._c_ffio_ptr = c_lib.api_newFFIO() *)
  let n0 := gw_newFFIO gw g in
  let shm := match shm_name with None => false | Some _ => true end in
  let args := init_args target_url mode hw_enabled shm_name shm_size
                        shm_offset cp0 in
  let '(n1, cp1) := gw_initFFIO gw args n0 in
  let log := [Call_newFFIO; Call_initFFIO args] in
  if CFFIO.ffio_state (contents n1) =? 1 then
    (mk_FFIO target_url mode 0 shm
             (Some (CFFIO.image_width (contents n1)))
             (Some (CFFIO.image_height (contents n1))) cp1,
     mk_world n1 log)
  else
    (mk_FFIO target_url mode 0 shm None None cp1,
     mk_world (gw_deleteFFIO gw n1) (log ++ [Call_deleteFFIO])).

(** *** The properties [ffio_state] and [frame_seq_c], lines 138-145 *)
Definition ffio_state (st : State G) : bool :=
  let state := CFFIO.ffio_state (contents (native (snd st))) in
  if (state =? 1) || (state =? 2) then true else false.

Definition frame_seq_c (st : State G) : Z :=
  CFFIO.frame_seq (contents (native (snd st))).

(** *** [FFIO.decode_one_frame], lines 147-181 *)

(** The presentation of the bytes [ret] in the format asked for, lines
    153-168.  A format that is none of the four falls off the end of the
    [if] chain, and of the method, which returns [None]. *)
Definition present (image_format : option string) (ret_ : list byte)
  : Py G py_value :=
  match image_format with
  | None => ret (PyBytes ret_)
  | Some fmt =>
      if (fmt =? "numpy")%string then
        let np_buffer := np_frombuffer ret_ in
        h <- get_attr "height" height ;;
        w <- get_attr "width" width ;;
        np_frame <- lift (np_reshape np_buffer [h; w; 3]) ;;
        ret (PyNdarray np_frame)
      else if (fmt =? "Image")%string then
        w <- get_attr "width" width ;;
        h <- get_attr "height" height ;;
        rgb_image <- lift (Image_frombytes (w, h) ret_) ;;
        ret (PyImage rgb_image)
      else if (fmt =? "base64")%string then
        let np_buffer := np_frombuffer ret_ in
        h <- get_attr "height" height ;;
        w <- get_attr "width" width ;;
        np_frame <- lift (np_reshape np_buffer [h; w; 3]) ;;
        bgr_image <- lift (cv2_cvtColor_RGB2BGR np_frame) ;;
        np_image <- lift (imencode_jpg bgr_image) ;;
        let base64_image_code := b64encode np_image in
        ret (PyStr base64_image_code)
      else ret PyNone
  end.

(** What lines 153-168 return or raise, as a function of what they read: the
    format, the bytes, and the attributes [width] and [height] of [self]
    ([None] for an attribute that is not bound). *)
Definition presentation (image_format : option string) (ret_ : list byte)
           (self_width self_height : option Z) : result py_value :=
  match image_format with
  | None => Return (PyBytes ret_)
  | Some fmt =>
      if (fmt =? "numpy")%string then
        match self_height, self_width with
        | None, _ => Raise (AttributeError "height")
        | Some _, None => Raise (AttributeError "width")
        | Some h, Some w =>
            match np_reshape (np_frombuffer ret_) [h; w; 3] with
            | Return np_frame => Return (PyNdarray np_frame)
            | Raise e => Raise e
            end
        end
      else if (fmt =? "Image")%string then
        match self_width, self_height with
        | None, _ => Raise (AttributeError "width")
        | Some _, None => Raise (AttributeError "height")
        | Some w, Some h =>
            match Image_frombytes (w, h) ret_ with
            | Return rgb_image => Return (PyImage rgb_image)
            | Raise e => Raise e
            end
        end
      else if (fmt =? "base64")%string then
        match self_height, self_width with
        | None, _ => Raise (AttributeError "height")
        | Some _, None => Raise (AttributeError "width")
        | Some h, Some w =>
            match np_reshape (np_frombuffer ret_) [h; w; 3] with
            | Return np_frame =>
                match cv2_cvtColor_RGB2BGR np_frame with
                | Return bgr_image =>
                    match imencode_jpg bgr_image with
                    | Return np_image => Return (PyStr (b64encode np_image))
                    | Raise e => Raise e
                    end
                | Raise e => Raise e
                end
            | Raise e => Raise e
            end
        end
      else Return PyNone
  end.

(** A result that is neither [bytes] nor [int] (a [bool] is not of type
    [int]) falls off the end as well. *)
Definition decode_one_frame (image_format : option string) : Py G py_value :=
  r <- api_decodeOneFrame ;;
  match r with
  | PyBytes bs =>
      upd_self (fun s => set_frame_seq_py (frame_seq_py s + 1) s) ;;
      present image_format bs
  | PyInt c =>
      if c =? -5 then ret (PyInt (-5))
      else if c =? -4 then ret (PyInt (-4))
      else ret (PyInt 1)
  | _ => ret PyNone
  end.

(** *** [FFIO.decode_one_frame_to_shm], lines 183-185 *)
Definition decode_one_frame_to_shm (offset : Z) : Py G bool :=
  api_decodeOneFrameToShm offset.

(** *** [FFIO.encode_one_frame], lines 187-200 *)

(** The branch for [bytes], lines 190-194. *)
Definition encode_one_frame_bytes (rgb_image : list byte) : Py G bool :=
  r <- api_encodeOneFrame rgb_image ;;
  if r =? 0 then
    upd_self (fun s => set_frame_seq_py (frame_seq_py s + 1) s) ;;
    ret true
  else ret false.

(** The call of line 197 is made on a [bytes] object, so it takes the branch
    above.  A PIL image is not of type [Image], which is a module: it falls
    through to the last line like every other object. *)
Definition encode_one_frame (rgb_image : py_value) : Py G bool :=
  match rgb_image with
  | PyBytes bs => encode_one_frame_bytes bs
  | PyNdarray a =>
      let rgb_image_bytes := tobytes a in
      encode_one_frame_bytes rgb_image_bytes
  | _ => ret false
  end.

(** *** [FFIO.encode_one_frame_from_shm], lines 202-203 *)
Definition encode_one_frame_from_shm (offset : Z) : Py G bool :=
  api_encodeOneFrameFromShm offset.

(** *** [FFIO.release_memory], lines 205-211 *)
Definition release_memory : Py G unit :=
  api_finalizeFFIO ;;
  api_deleteFFIO ;;
  upd_self (set_width 0) ;;
  upd_self (set_height 0) ;;
  upd_self (set_frame_seq_py 0).

(** Running a method and looking at what it leaves behind. *)
Definition value_of {A} (m : Py G A) (st : State G) : result A := fst (m st).
Definition state_after {A} (m : Py G A) (st : State G) : State G := snd (m st).
Definition self_after {A} (m : Py G A) (st : State G) : FFIO := fst (snd (m st)).
Definition world_after {A} (m : Py G A) (st : State G) : World G := snd (snd (m st)).

(** Calls made one after the other, whatever they return. *)
Fixpoint run_calls {A} (ms : list (Py G A)) (st : State G) : State G :=
  match ms with
  | [] => st
  | m :: rest => run_calls rest (state_after m st)
  end.

(** The calls of [ms], made one after the other, all succeed, where [ok]
    says which results count as a success. *)
Fixpoint all_succeed {A} (ok : result A -> bool) (ms : list (Py G A))
         (st : State G) : bool :=
  match ms with
  | [] => true
  | m :: rest => ok (value_of m st) && all_succeed ok rest (state_after m st)
  end.

End Methods.

(** Which results count as a success: [True] for the calls that return a
    bool, a frame in one of its four representations for [decode_one_frame]. *)
Definition is_true (r : result bool) : bool :=
  match r with Return true => true | _ => false end.

Definition is_frame (r : result py_value) : bool :=
  match r with
  | Return (PyBytes _) | Return (PyNdarray _)
  | Return (PyImage _) | Return (PyStr _) => true
  | _ => false
  end.

(** What [decode_one_frame] makes of an integer code, lines 170-181. *)
Definition decode_code (c : Z) : Z :=
  if c =? -5 then -5 else if c =? -4 then -4 else 1.

(** The values of a C [int]. *)
Definition in_c_int (z : Z) : Prop := - 2 ^ 31 <= z < 2 ^ 31.

(** A library that counts, in [frame_seq], the frames it has decoded or
    encoded through the calls that carry the bytes.  The field is a [c_int]
    (line 17): it holds a value of that range, and one more than the largest
    is the smallest. *)
Definition counts_frames {G} (gw : Gateway G) : Prop :=
  (forall n,
      in_c_int (CFFIO.frame_seq (contents n)) ->
      CFFIO.frame_seq (contents (snd (gw_decodeOneFrame gw n))) =
      to_c_int (CFFIO.frame_seq (contents n) +
                match fst (gw_decodeOneFrame gw n) with PyBytes _ => 1 | _ => 0 end))
  /\ (forall bs n,
      in_c_int (CFFIO.frame_seq (contents n)) ->
      CFFIO.frame_seq (contents (snd (gw_encodeOneFrame gw bs n))) =
      to_c_int (CFFIO.frame_seq (contents n) +
                (if fst (gw_encodeOneFrame gw bs n) =? 0 then 1 else 0))).

(** ** Sequences of calls

    One call of a frame method, as a caller may make it, and the native calls
    that it stands for in the log. *)
Inductive Op :=
| Decode        (image_format : option string)
| DecodeToShm   (offset : Z)
| Encode        (rgb_image : py_value)
| EncodeFromShm (offset : Z).

Definition is_shm_op (o : Op) : bool :=
  match o with
  | DecodeToShm _ | EncodeFromShm _ => true
  | _ => false
  end.

Definition op_calls (o : Op) : list Call :=
  match o with
  | Decode _ => [Call_decodeOneFrame]
  | DecodeToShm offset => [Call_decodeOneFrameToShm (to_c_int offset)]
  | Encode (PyBytes bs) => [Call_encodeOneFrame bs]
  | Encode (PyNdarray a) => [Call_encodeOneFrame (tobytes a)]
  | Encode _ => []
  | EncodeFromShm offset => [Call_encodeOneFrameFromShm (to_c_int offset)]
  end.

(** Two sessions that differ in the local counter at most. *)
Definition same_but_counter (s s' : FFIO) : Prop :=
  target_url s' = target_url s
  /\ mode s' = mode s
  /\ shm_enabled s' = shm_enabled s
  /\ width s' = width s
  /\ height s' = height s
  /\ codec_params s' = codec_params s.

Definition count_plain (ops : list Op) : nat :=
  List.length (filter (fun o => negb (is_shm_op o)) ops).

Section Ops.

Context {G : Type} (gw : Gateway G).
Variable imencode_jpg : ndarray -> result (list byte).

Definition run_op (o : Op) (st : State G) : State G :=
  match o with
  | Decode fmt => state_after (decode_one_frame gw imencode_jpg fmt) st
  | DecodeToShm offset => state_after (decode_one_frame_to_shm gw offset) st
  | Encode rgb_image => state_after (encode_one_frame gw rgb_image) st
  | EncodeFromShm offset => state_after (encode_one_frame_from_shm gw offset) st
  end.

Definition run_ops (ops : list Op) (st : State G) : State G :=
  fold_left (fun acc o => run_op o acc) ops st.

End Ops.

(** ** A small library to run the wrapper on

    The hidden state is the list of objects that the stream will hand to the
    coming calls of [api_decodeOneFrame].  Streams are 2x1 pixels; opening the
    empty locator fails.  The frame counter of the struct, a C [int], moves
    on every frame that the library processes. *)
Module Demo.

Definition fresh : CFFIO.t := CFFIO.mk 0 0 0 false false 0 0 0 0 0 0.

Definition with_state (v : Z) (c : CFFIO.t) : CFFIO.t :=
  CFFIO.mk v (CFFIO.ffio_mode c) (CFFIO.frame_seq c) (CFFIO.hw_enabled c)
           (CFFIO.shm_enabled c) (CFFIO.shm_fd c) (CFFIO.shm_size c)
           (CFFIO.video_stream_index c) (CFFIO.image_width c)
           (CFFIO.image_height c) (CFFIO.image_byte_size c).

Definition bump (c : CFFIO.t) : CFFIO.t :=
  CFFIO.mk 2 (CFFIO.ffio_mode c) (to_c_int (CFFIO.frame_seq c + 1))
           (CFFIO.hw_enabled c)
           (CFFIO.shm_enabled c) (CFFIO.shm_fd c) (CFFIO.shm_size c)
           (CFFIO.video_stream_index c) (CFFIO.image_width c)
           (CFFIO.image_height c) (CFFIO.image_byte_size c).

Definition G : Type := list py_value.

Definition open (a : InitArgs) (n : Native G) : Native G * CCodecParams.t :=
  if (ia_url a =? "")%string
  then (mk_native (hidden n) (with_state (-1) (contents n)), ia_codec_params a)
  else (mk_native (hidden n)
          (CFFIO.mk 1 (ia_mode a) 0 (ia_hw_enabled a) (ia_shm_enabled a) 0
                    (ia_shm_size a) 0 2 1 6),
        ia_codec_params a).

Definition pull (n : Native G) : py_value * Native G :=
  match hidden n with
  | [] => (PyInt (-5), n)
  | PyBytes bs :: rest => (PyBytes bs, mk_native rest (bump (contents n)))
  | v :: rest => (v, mk_native rest (contents n))
  end.

Definition pull_shm (offset : Z) (n : Native G) : bool * Native G :=
  match hidden n with
  | PyBytes bs :: rest => (true, mk_native rest (bump (contents n)))
  | _ => (false, n)
  end.

Definition push (rgb : list byte) (n : Native G) : Z * Native G :=
  if Z.of_nat (List.length rgb) =? CFFIO.image_byte_size (contents n)
  then (0, mk_native (hidden n) (bump (contents n)))
  else (-1, n).

Definition push_shm (offset : Z) (n : Native G) : bool * Native G :=
  (true, mk_native (hidden n) (bump (contents n))).

Definition gw : Gateway G :=
  mk_gateway G
    (fun g => mk_native g fresh)
    open
    (fun n => mk_native (hidden n) (with_state 4 (contents n)))
    (fun n => n)
    pull pull_shm push push_shm.

(** A compressor that keeps the bytes as they are: enough to see which bytes
    reach it. *)
Definition store (a : ndarray) : result (list byte) := Return (nd_data a).

Definition frame1 : list byte := [x01; x02; x03; x04; x05; x06]%byte.
Definition frame2 : list byte := [x0a; x0b; x0c; x0d; x0e; x0f]%byte.

(** A decoding session over a stream of two frames. *)
Definition decoder : State G :=
  __init__ gw "a.mp4" 0 false None 0 0 None [PyBytes frame1; PyBytes frame2].

(** An encoding session that uses shared memory. *)
Definition encoder : State G :=
  __init__ gw "rtmp://host/live" 1 false (Some "shm") 6 0 None [].

(** A session whose initialisation fails. *)
Definition failed : State G :=
  __init__ gw "" 0 false None 0 0 None [PyBytes frame1].

(** A decoding session whose stream cannot be resynchronised. *)
Definition mismatch : State G :=
  __init__ gw "a.mp4" 0 false None 0 0 None [PyInt (-4)].

(** The decoding session after [release_memory]. *)
Definition released : State G := state_after (release_memory gw) decoder.

(** The same library, except that it takes whatever buffer it is given. *)
Definition gw_lenient : Gateway G :=
  mk_gateway G
    (gw_newFFIO gw) (gw_initFFIO gw) (gw_finalizeFFIO gw) (gw_deleteFFIO gw)
    pull pull_shm
    (fun rgb n => (0, mk_native (hidden n) (bump (contents n))))
    push_shm.

Definition encoder_lenient : State G :=
  __init__ gw_lenient "rtmp://host/live" 1 false None 0 0 None [].

(** A decoding session to which the library hands a frame of one byte. *)
Definition short : State G :=
  __init__ gw "a.mp4" 0 false None 0 0 None [PyBytes [x01%byte]].

(** A decoding session to which the library hands a frame of nine bytes. *)
Definition long : State G :=
  __init__ gw "a.mp4" 0 false None 0 0 None
           [PyBytes (frame1 ++ [x07; x08; x09]%byte)].

(** The decoding session as it is after 2^31 - 1 frames, with one more frame
    in the stream. *)
Definition at_limit : State G :=
  let c := contents (native (snd decoder)) in
  (set_frame_seq_py (2 ^ 31 - 1) (fst decoder),
   mk_world
     (mk_native [PyBytes frame1]
        (CFFIO.mk 2 (CFFIO.ffio_mode c) (2 ^ 31 - 1) (CFFIO.hw_enabled c)
                  (CFFIO.shm_enabled c) (CFFIO.shm_fd c) (CFFIO.shm_size c)
                  (CFFIO.video_stream_index c) (CFFIO.image_width c)
                  (CFFIO.image_height c) (CFFIO.image_byte_size c)))
     (calls (snd decoder))).

(** A decoding session to which the library hands [True]. *)
Definition odd : State G :=
  __init__ gw "a.mp4" 0 false None 0 0 None [PyBool true].

End Demo.

(** * Properties *)

(** ** The image libraries *)

(** Induction over a buffer, one pixel at a time. *)
Lemma pixel_ind (P : list byte -> Prop) :
  P [] -> (forall r, P [r]) -> (forall r g, P [r; g]) ->
  (forall r g b rest, P rest -> P (r :: g :: b :: rest)) ->
  forall bs, P bs.
Proof.
  intros H0 H1 H2 H3 bs.
  assert (Hall : P bs /\ (forall r, P (r :: bs)) /\ (forall r g, P (r :: g :: bs))).
  { induction bs as [|x bs [IH0 [IH1 IH2]]].
    - repeat split; auto.
    - repeat split; auto. }
  apply Hall.
Qed.

Lemma swap_rb_length (bs : list byte) :
  List.length (swap_rb bs) = List.length bs.
Proof.
  induction bs as [| | |r g b rest IH] using pixel_ind; simpl; congruence.
Qed.

Lemma swap_rb_involutive (bs : list byte) : swap_rb (swap_rb bs) = bs.
Proof.
  induction bs as [| | |r g b rest IH] using pixel_ind; simpl; congruence.
Qed.

(** In every complete pixel the first and the third byte change places and the
    second stays. *)
Lemma swap_rb_pixel (bs : list byte) (k : nat) (d : byte) :
  (3 * k + 2 < List.length bs)%nat ->
  nth (3 * k) (swap_rb bs) d = nth (3 * k + 2) bs d
  /\ nth (3 * k + 1) (swap_rb bs) d = nth (3 * k + 1) bs d
  /\ nth (3 * k + 2) (swap_rb bs) d = nth (3 * k) bs d.
Proof.
  revert bs.
  induction k as [|k IH]; intros [|r [|g [|b rest]]] H; simpl in H; try lia.
  - repeat split; reflexivity.
  - replace (3 * S k)%nat with (S (S (S (3 * k)))) by lia.
    cbn [swap_rb Nat.add nth].
    apply IH. lia.
Qed.

Lemma np_reshape_frame (bs : list byte) (h w : Z) :
  0 <= h -> 0 <= w -> Z.of_nat (List.length bs) = h * w * 3 ->
  np_reshape (np_frombuffer bs) [h; w; 3] = Return (mk_ndarray [h; w; 3] bs).
Proof.
  intros Hh Hw Hlen.
  unfold np_reshape, count_unknown, prod_known, np_frombuffer; simpl.
  destruct (Z.ltb_spec h 0); [lia|].
  destruct (Z.ltb_spec w 0); [lia|].
  simpl.
  replace (h * (w * 3)) with (h * w * 3) by lia.
  rewrite Hlen, Z.eqb_refl. reflexivity.
Qed.

Lemma Image_frombytes_frame (bs : list byte) (h w : Z) :
  0 < h -> 0 < w -> Z.of_nat (List.length bs) = h * w * 3 ->
  Image_frombytes (w, h) bs = Return (mk_image "RGB" (w, h) bs).
Proof.
  intros Hh Hw Hlen.
  unfold Image_frombytes.
  destruct (Z.ltb_spec w 0); [lia|].
  destruct (Z.ltb_spec h 0); [lia|].
  destruct (Z.eqb_spec w 0); [lia|].
  destruct (Z.eqb_spec h 0); [lia|].
  simpl.
  destruct (Z.ltb_spec (Z.of_nat (List.length bs)) (w * h * 3)); [lia|].
  replace (w * h * 3) with (Z.of_nat (List.length bs)) by lia.
  rewrite Nat2Z.id, firstn_all. reflexivity.
Qed.

Lemma cv2_cvtColor_frame (bs : list byte) (shape : list Z) :
  bs <> [] ->
  cv2_cvtColor_RGB2BGR (mk_ndarray shape bs) =
  Return (mk_ndarray shape (swap_rb bs)).
Proof.
  intros Hne. unfold cv2_cvtColor_RGB2BGR; simpl.
  destruct bs; [congruence | reflexivity].
Qed.

(** Whatever the shape, a reshape keeps the buffer, the reorder is the pixel
    swap on it, and an image is made of a prefix of the bytes given. *)
Lemma np_reshape_data (a a' : ndarray) (shape : list Z) :
  np_reshape a shape = Return a' -> nd_data a' = nd_data a.
Proof.
  unfold np_reshape.
  destruct (count_unknown shape) as [|[|k]]; try discriminate.
  - destruct (_ =? _); [|discriminate]. intros [= <-]. reflexivity.
  - destruct (_ || _); [discriminate|]. intros [= <-]. reflexivity.
Qed.

Lemma np_reshape_known (a a' : ndarray) (h w : Z) :
  0 <= h -> 0 <= w ->
  np_reshape a [h; w; 3] = Return a' ->
  nd_shape a' = [h; w; 3] /\ Z.of_nat (List.length (nd_data a)) = h * w * 3.
Proof.
  intros Hh Hw. unfold np_reshape, count_unknown, prod_known. simpl.
  destruct (Z.ltb_spec h 0); [lia|].
  destruct (Z.ltb_spec w 0); [lia|]. simpl.
  destruct (Z.eqb_spec (Z.of_nat (List.length (nd_data a))) (h * (w * 3)));
    [|discriminate].
  intros [= <-]. simpl. split; [reflexivity | lia].
Qed.

Lemma cv2_cvtColor_data (a a' : ndarray) :
  cv2_cvtColor_RGB2BGR a = Return a' ->
  a' = mk_ndarray (nd_shape a) (swap_rb (nd_data a)) /\ nd_data a <> [].
Proof.
  unfold cv2_cvtColor_RGB2BGR.
  destruct (nd_data a); [discriminate|].
  intros [= <-]. split; [reflexivity | discriminate].
Qed.

Lemma Image_frombytes_data (size : Z * Z) (data : list byte) (i : pil_image) :
  Image_frombytes size data = Return i ->
  exists n, i = mk_image "RGB" size (firstn n data).
Proof.
  unfold Image_frombytes. destruct size as [w h].
  destruct (_ || _); [discriminate|].
  destruct (_ || _).
  - intros [= <-]. exists O. reflexivity.
  - destruct (_ <? _); [discriminate|]. intros [= <-]. eauto.
Qed.

Lemma decode_code_cases (c : Z) :
  (decode_code c = -5 <-> c = -5)
  /\ (decode_code c = -4 <-> c = -4)
  /\ (c <> -5 -> c <> -4 -> decode_code c = 1).
Proof.
  unfold decode_code.
  destruct (Z.eqb_spec c (-5)); [lia|].
  destruct (Z.eqb_spec c (-4)); lia.
Qed.

(** ** Integers handed to the library *)

Lemma to_c_int_range (z : Z) : - 2 ^ 31 <= to_c_int z < 2 ^ 31.
Proof.
  unfold to_c_int.
  change (2 ^ 31) with 2147483648. change (2 ^ 32) with 4294967296.
  pose proof (Z.mod_pos_bound (z + 2147483648) 4294967296). lia.
Qed.

Lemma to_c_int_small (z : Z) : - 2 ^ 31 <= z < 2 ^ 31 -> to_c_int z = z.
Proof.
  unfold to_c_int.
  change (2 ^ 31) with 2147483648. change (2 ^ 32) with 4294967296.
  intros H. rewrite Z.mod_small; lia.
Qed.

Lemma to_c_int_period (z k : Z) : to_c_int (z + k * 2 ^ 32) = to_c_int z.
Proof.
  unfold to_c_int.
  replace (z + k * 2 ^ 32 + 2 ^ 31) with (z + 2 ^ 31 + k * 2 ^ 32) by lia.
  rewrite Z_mod_plus_full. reflexivity.
Qed.

Lemma to_c_int_add (a b : Z) : to_c_int (to_c_int a + b) = to_c_int (a + b).
Proof.
  unfold to_c_int.
  replace ((a + 2 ^ 31) mod 2 ^ 32 - 2 ^ 31 + b + 2 ^ 31)
    with ((a + 2 ^ 31) mod 2 ^ 32 + b) by lia.
  rewrite Zplus_mod_idemp_l.
  replace (a + 2 ^ 31 + b) with (a + b + 2 ^ 31) by lia.
  reflexivity.
Qed.

(** ** The monad *)

Lemma ret_preserves {G A} (a : A) : preserves_state (@ret G A a).
Proof. intros st. reflexivity. Qed.

Lemma lift_preserves {G A} (r : result A) : preserves_state (@lift G A r).
Proof. intros st. reflexivity. Qed.

Lemma get_attr_preserves {G} (name : string) (f : FFIO -> option Z) :
  preserves_state (@get_attr G name f).
Proof. intros st. unfold get_attr. destruct (f (fst st)); reflexivity. Qed.

Lemma bind_preserves {G A B} (m : Py G A) (k : A -> Py G B) :
  preserves_state m -> (forall a, preserves_state (k a)) ->
  preserves_state (bind m k).
Proof.
  intros Hm Hk st. unfold bind.
  specialize (Hm st).
  destruct (m st) as [[a|e] st']; simpl in Hm; subst st'.
  - apply Hk.
  - reflexivity.
Qed.

Ltac preserves :=
  repeat first
    [ apply ret_preserves | apply lift_preserves | apply get_attr_preserves
    | apply bind_preserves; [|intro] ].

(** ** The methods *)

Ltac py_unfold :=
  unfold value_of, self_after, world_after, state_after,
    decode_one_frame, decode_one_frame_to_shm,
    encode_one_frame, encode_one_frame_bytes, encode_one_frame_from_shm,
    release_memory,
    api_finalizeFFIO, api_deleteFFIO, api_decodeOneFrame,
    api_decodeOneFrameToShm, api_encodeOneFrame, api_encodeOneFrameFromShm,
    native_call, bind, ret, lift, upd_self in *.

Section Session.

Context {G : Type} (gw : Gateway G).
Variable imencode_jpg : ndarray -> result (list byte).

Local Abbreviation decode := (decode_one_frame gw imencode_jpg).

Lemma present_preserves (fmt : option string) (bs : list byte) :
  preserves_state (@present G imencode_jpg fmt bs).
Proof.
  unfold present.
  destruct fmt as [fmt|]; [|preserves].
  destruct (fmt =? "numpy")%string; [preserves|].
  destruct (fmt =? "Image")%string; [preserves|].
  destruct (fmt =? "base64")%string; preserves.
Qed.

(** [decode_one_frame], cut at the answer of the library. *)
Lemma decode_one_frame_run (fmt : option string) (s : FFIO) (w : World G) :
  decode fmt (s, w) =
  let n' := snd (gw_decodeOneFrame gw (native w)) in
  let w' := mk_world n' (calls w ++ [Call_decodeOneFrame]) in
  match fst (gw_decodeOneFrame gw (native w)) with
  | PyBytes bs =>
      let st' := (set_frame_seq_py (frame_seq_py s + 1) s, w') in
      (fst (present imencode_jpg fmt bs st'), st')
  | PyInt c => (Return (PyInt (decode_code c)), (s, w'))
  | _ => (Return PyNone, (s, w'))
  end.
Proof.
  py_unfold. simpl.
  destruct (gw_decodeOneFrame gw (native w)) as [r n'].
  destruct r; simpl; try reflexivity.
  - unfold decode_code.
    destruct (z =? -5); [reflexivity|]. destruct (z =? -4); reflexivity.
  - pose proof (present_preserves fmt bs
      (set_frame_seq_py (frame_seq_py s + 1) s,
       mk_world n' (calls w ++ [Call_decodeOneFrame]))) as Hp.
    destruct (present imencode_jpg fmt bs _) as [v st']; simpl in *.
    subst st'. destruct v; reflexivity.
Qed.

(** *** What each method does to the log of native calls *)

Lemma decode_one_frame_calls (fmt : option string) (st : State G) :
  calls (world_after (decode fmt) st) = calls (snd st) ++ [Call_decodeOneFrame].
Proof.
  destruct st as [s w]. unfold world_after. rewrite decode_one_frame_run. cbn [fst snd].
  destruct (fst (gw_decodeOneFrame gw (native w))); reflexivity.
Qed.

Lemma decode_one_frame_native (fmt : option string) (st : State G) :
  native (world_after (decode fmt) st) =
  snd (gw_decodeOneFrame gw (native (snd st))).
Proof.
  destruct st as [s w]. unfold world_after. rewrite decode_one_frame_run. cbn [fst snd].
  destruct (fst (gw_decodeOneFrame gw (native w))); reflexivity.
Qed.

Lemma encode_one_frame_bytes_run (bs : list byte) (s : FFIO) (w : World G) :
  encode_one_frame_bytes gw bs (s, w) =
  let w' := mk_world (snd (gw_encodeOneFrame gw bs (native w)))
                     (calls w ++ [Call_encodeOneFrame bs]) in
  if fst (gw_encodeOneFrame gw bs (native w)) =? 0
  then (Return true, (set_frame_seq_py (frame_seq_py s + 1) s, w'))
  else (Return false, (s, w')).
Proof.
  py_unfold. simpl.
  destruct (gw_encodeOneFrame gw bs (native w)) as [c n']. simpl.
  destruct (c =? 0); reflexivity.
Qed.

Lemma release_memory_run (s : FFIO) (w : World G) :
  release_memory gw (s, w) =
  (Return tt,
   (mk_FFIO (target_url s) (mode s) 0 (shm_enabled s) (Some 0) (Some 0)
            (codec_params s),
    mk_world (gw_deleteFFIO gw (gw_finalizeFFIO gw (native w)))
             (calls w ++ [Call_finalizeFFIO; Call_deleteFFIO]))).
Proof.
  py_unfold. simpl. rewrite <- app_assoc. reflexivity.
Qed.

(** *** The local counter *)

(** The local counter moves by one exactly when the library hands back
    bytes, whatever happens to them afterwards; nothing else of [self]
    changes. *)
Lemma decode_one_frame_self (fmt : option string) (st : State G) :
  self_after (decode fmt) st =
  match fst (gw_decodeOneFrame gw (native (snd st))) with
  | PyBytes _ => set_frame_seq_py (frame_seq_py (fst st) + 1) (fst st)
  | _ => fst st
  end.
Proof.
  destruct st as [s w]. unfold self_after. rewrite decode_one_frame_run. cbn [fst snd].
  destruct (fst (gw_decodeOneFrame gw (native w))); reflexivity.
Qed.

(** A call that returns a frame has received bytes from the library. *)
Lemma decode_one_frame_is_frame (fmt : option string) (st : State G) :
  is_frame (value_of (decode fmt) st) = true ->
  exists bs, fst (gw_decodeOneFrame gw (native (snd st))) = PyBytes bs.
Proof.
  destruct st as [s w]. unfold value_of. rewrite decode_one_frame_run. cbn [fst snd].
  destruct (fst (gw_decodeOneFrame gw (native w))); simpl;
    try discriminate; eauto.
Qed.

(** X9.  After [N] calls of [decode_one_frame] in a row that all return a
    frame, in whatever formats, the local counter has moved by [N]. *)
Lemma decode_one_frame_counts (fmts : list (option string)) (st : State G) :
  all_succeed is_frame (map decode fmts) st = true ->
  frame_seq_py (fst (run_calls (map decode fmts) st)) =
  frame_seq_py (fst st) + Z.of_nat (List.length fmts).
Proof.
  revert st. induction fmts as [|fmt fmts IH]; intros st Hok.
  - simpl. lia.
  - cbn [map all_succeed run_calls] in *.
    apply andb_prop in Hok. destruct Hok as [Hfmt Hrest].
    rewrite (IH _ Hrest).
    destruct (decode_one_frame_is_frame _ _ Hfmt) as [bs Hbs].
    change (fst (state_after (decode fmt) st))
      with (self_after (decode fmt) st).
    rewrite decode_one_frame_self, Hbs. cbn [List.length]. simpl. lia.
Qed.

(** X10.  After [N] calls of [encode_one_frame] on [bytes] in a row that all
    return [True], the local counter has moved by [N]. *)
Lemma encode_one_frame_counts (frames : list (list byte)) (st : State G) :
  all_succeed is_true (map (fun bs => encode_one_frame gw (PyBytes bs)) frames) st
  = true ->
  frame_seq_py
    (fst (run_calls (map (fun bs => encode_one_frame gw (PyBytes bs)) frames) st)) =
  frame_seq_py (fst st) + Z.of_nat (List.length frames).
Proof.
  revert st. induction frames as [|bs frames IH]; intros [s w] Hok.
  - simpl. lia.
  - cbn [map all_succeed run_calls] in *.
    apply andb_prop in Hok. destruct Hok as [Hbs Hrest].
    rewrite (IH _ Hrest).
    unfold value_of, state_after in *. cbn [encode_one_frame] in *.
    rewrite encode_one_frame_bytes_run in *. cbv zeta in *.
    destruct (fst (gw_encodeOneFrame gw bs (native w)) =? 0);
      [|discriminate].
    cbn [List.length]. simpl. lia.
Qed.

(** With a library that counts its frames, the counter of the struct is the
    local counter as a C [int], and stays so through [decode_one_frame] and
    [encode_one_frame], whether the call succeeds or not. *)
Lemma decode_one_frame_keeps_counters_equal (fmt : option string) (st : State G) :
  counts_frames gw ->
  frame_seq_c st = to_c_int (frame_seq_py (fst st)) ->
  frame_seq_c (state_after (decode fmt) st) =
  to_c_int (frame_seq_py (self_after (decode fmt) st)).
Proof.
  intros [Hdec _] Heq.
  unfold frame_seq_c in *.
  change (snd (state_after (decode fmt) st))
    with (world_after (decode fmt) st).
  rewrite decode_one_frame_native, decode_one_frame_self, Hdec
    by (unfold in_c_int; rewrite Heq; apply to_c_int_range).
  rewrite Heq, to_c_int_add.
  destruct (fst (gw_decodeOneFrame gw (native (snd st))));
    cbn [frame_seq_py set_frame_seq_py]; rewrite ?Z.add_0_r; reflexivity.
Qed.

Lemma encode_one_frame_keeps_counters_equal (bs : list byte) (st : State G) :
  counts_frames gw ->
  frame_seq_c st = to_c_int (frame_seq_py (fst st)) ->
  frame_seq_c (state_after (encode_one_frame gw (PyBytes bs)) st) =
  to_c_int (frame_seq_py (self_after (encode_one_frame gw (PyBytes bs)) st)).
Proof.
  intros [_ Henc] Heq. destruct st as [s w].
  unfold frame_seq_c, self_after, state_after in *.
  cbn [encode_one_frame]. rewrite encode_one_frame_bytes_run. cbv zeta.
  cbn [fst snd native] in Heq.
  specialize (Henc bs (native w)).
  rewrite Heq in Henc. specialize (Henc (to_c_int_range _)).
  rewrite to_c_int_add in Henc.
  destruct (fst (gw_encodeOneFrame gw bs (native w)) =? 0);
    cbn [fst snd native contents frame_seq_py set_frame_seq_py];
    rewrite Henc, ?Z.add_0_r; reflexivity.
Qed.

(** The two calls that go through shared memory return what the library
    answers and leave [self], the local counter included, as it was. *)
Lemma decode_one_frame_to_shm_run (offset : Z) (st : State G) :
  self_after (decode_one_frame_to_shm gw offset) st = fst st
  /\ value_of (decode_one_frame_to_shm gw offset) st =
     Return (fst (gw_decodeOneFrameToShm gw (to_c_int offset) (native (snd st)))).
Proof.
  destruct st as [s w]. py_unfold. simpl.
  destruct (gw_decodeOneFrameToShm gw (to_c_int offset) (native w)).
  split; reflexivity.
Qed.

Lemma encode_one_frame_from_shm_run (offset : Z) (st : State G) :
  self_after (encode_one_frame_from_shm gw offset) st = fst st
  /\ value_of (encode_one_frame_from_shm gw offset) st =
     Return (fst (gw_encodeOneFrameFromShm gw (to_c_int offset) (native (snd st)))).
Proof.
  destruct st as [s w]. py_unfold. simpl.
  destruct (gw_encodeOneFrameFromShm gw (to_c_int offset) (native w)).
  split; reflexivity.
Qed.

(** However many calls go through shared memory, and whatever they return,
    the local counter stays where it was. *)
Lemma shm_calls_keep_frame_seq_py (offsets : list Z) (st : State G) :
  frame_seq_py (fst (run_calls (map (decode_one_frame_to_shm gw) offsets) st))
  = frame_seq_py (fst st)
  /\ frame_seq_py (fst (run_calls (map (encode_one_frame_from_shm gw) offsets) st))
    = frame_seq_py (fst st).
Proof.
  split; revert st; induction offsets as [|o offsets IH]; intros st;
    try reflexivity; cbn [map run_calls]; rewrite IH.
  - change (fst (state_after (decode_one_frame_to_shm gw o) st))
      with (self_after (decode_one_frame_to_shm gw o) st).
    now rewrite (proj1 (decode_one_frame_to_shm_run o st)).
  - change (fst (state_after (encode_one_frame_from_shm gw o) st))
      with (self_after (encode_one_frame_from_shm gw o) st).
    now rewrite (proj1 (encode_one_frame_from_shm_run o st)).
Qed.

(** *** The four presentations of a well-sized frame *)

Lemma present_frame (s : FFIO) (wd : World G) (bs : list byte) (w h : Z) :
  width s = Some w -> height s = Some h ->
  0 < w -> 0 < h ->
  Z.of_nat (List.length bs) = h * w * 3 ->
  fst (present imencode_jpg None bs (s, wd)) = Return (PyBytes bs)
  /\ fst (present imencode_jpg (Some "numpy") bs (s, wd))
     = Return (PyNdarray (mk_ndarray [h; w; 3] bs))
  /\ fst (present imencode_jpg (Some "Image") bs (s, wd))
     = Return (PyImage (mk_image "RGB" (w, h) bs))
  /\ fst (present imencode_jpg (Some "base64") bs (s, wd))
     = match imencode_jpg (mk_ndarray [h; w; 3] (swap_rb bs)) with
       | Return jpg => Return (PyStr (b64encode jpg))
       | Raise e => Raise e
       end.
Proof.
  intros Hw Hh Hw0 Hh0 Hlen.
  assert (Hne : bs <> []).
  { intros ->. simpl in Hlen. nia. }
  unfold present, bind, get_attr, lift, ret.
  cbn [fst snd String.eqb Ascii.eqb Bool.eqb]. do 2 (rewrite ?Hw, ?Hh; cbn [fst snd]).
  rewrite np_reshape_frame by lia.
  rewrite Image_frombytes_frame by lia. cbn [fst snd].
  rewrite cv2_cvtColor_frame by assumption.
  repeat split.
  destruct (imencode_jpg _); reflexivity.
Qed.

(** *** The presentation reads [width] and [height] and nothing else *)

Lemma present_value (fmt : option string) (bs : list byte) (s : FFIO)
      (wd : World G) :
  fst (present imencode_jpg fmt bs (s, wd))
  = presentation imencode_jpg fmt bs (width s) (height s).
Proof.
  unfold present, presentation, bind, get_attr, lift, ret.
  destruct fmt as [fmt|]; [|reflexivity].
  destruct (fmt =? "numpy")%string; [|destruct (fmt =? "Image")%string;
    [|destruct (fmt =? "base64")%string; [|reflexivity]]];
    cbn [fst snd].
  - destruct (height s) as [h|]; cbn [fst snd]; [|reflexivity].
    destruct (width s) as [w|]; cbn [fst snd]; [|reflexivity].
    destruct (np_reshape (np_frombuffer bs) [h; w; 3]); reflexivity.
  - destruct (width s) as [w|]; cbn [fst snd]; [|reflexivity].
    destruct (height s) as [h|]; cbn [fst snd]; [|reflexivity].
    destruct (Image_frombytes (w, h) bs); reflexivity.
  - destruct (height s) as [h|]; cbn [fst snd]; [|reflexivity].
    destruct (width s) as [w|]; cbn [fst snd]; [|reflexivity].
    destruct (np_reshape (np_frombuffer bs) [h; w; 3]) as [a|]; cbn [fst snd];
      [|reflexivity].
    destruct (cv2_cvtColor_RGB2BGR a) as [a'|]; cbn [fst snd]; [|reflexivity].
    destruct (imencode_jpg a'); reflexivity.
Qed.

(** *** Every presentation that comes back *)

Lemma present_base64_success (s : FFIO) (wd : World G) (bs : list byte)
      (v : py_value) :
  fst (present imencode_jpg (Some "base64") bs (s, wd)) = Return v ->
  exists w h a jpg,
    width s = Some w /\ height s = Some h
    /\ np_reshape (np_frombuffer bs) [h; w; 3] = Return a
    /\ nd_data a = bs
    /\ imencode_jpg (mk_ndarray (nd_shape a) (swap_rb bs)) = Return jpg
    /\ v = PyStr (b64encode jpg).
Proof.
  unfold present, bind, get_attr, lift, ret.
  cbn [fst snd String.eqb Ascii.eqb Bool.eqb].
  destruct (height s) as [h|]; [|discriminate]. cbn [fst snd].
  destruct (width s) as [w|]; [|discriminate]. cbn [fst snd].
  destruct (np_reshape (np_frombuffer bs) [h; w; 3]) as [a|e] eqn:Ea;
    [|discriminate].
  pose proof (np_reshape_data _ _ _ Ea) as Hd. simpl in Hd.
  destruct (cv2_cvtColor_RGB2BGR a) as [a'|e] eqn:Ec; [|discriminate].
  apply cv2_cvtColor_data in Ec. destruct Ec as [-> _]. rewrite Hd.
  destruct (imencode_jpg _) as [jpg|e] eqn:Ej; [|discriminate].
  intros [= <-]. exists w, h, a, jpg. auto 10.
Qed.

Lemma present_numpy_success (s : FFIO) (wd : World G) (bs : list byte)
      (v : py_value) :
  fst (present imencode_jpg (Some "numpy") bs (s, wd)) = Return v ->
  exists shape, v = PyNdarray (mk_ndarray shape bs).
Proof.
  unfold present, bind, get_attr, lift, ret.
  cbn [fst snd String.eqb Ascii.eqb Bool.eqb].
  destruct (height s) as [h|]; [|discriminate]. cbn [fst snd].
  destruct (width s) as [w|]; [|discriminate]. cbn [fst snd].
  destruct (np_reshape (np_frombuffer bs) [h; w; 3]) as [a|e] eqn:Ea;
    [|discriminate].
  apply np_reshape_data in Ea. simpl in Ea.
  intros [= <-]. exists (nd_shape a). destruct a; simpl in *. congruence.
Qed.

Lemma present_Image_success (s : FFIO) (wd : World G) (bs : list byte)
      (v : py_value) :
  fst (present imencode_jpg (Some "Image") bs (s, wd)) = Return v ->
  exists size n, v = PyImage (mk_image "RGB" size (firstn n bs)).
Proof.
  unfold present, bind, get_attr, lift, ret.
  cbn [fst snd String.eqb Ascii.eqb Bool.eqb].
  destruct (width s) as [w|]; [|discriminate]. cbn [fst snd].
  destruct (height s) as [h|]; [|discriminate]. cbn [fst snd].
  destruct (Image_frombytes (w, h) bs) as [i|e] eqn:Ei; [|discriminate].
  apply Image_frombytes_data in Ei. destruct Ei as [n ->].
  intros [= <-]. eauto.
Qed.

End Session.

(** ** [__init__] *)

Section Init.

Context {G : Type} (gw : Gateway G).

Variables (target_url : string) (mode : Z) (hw : bool)
          (shm_name : option string) (shm_size shm_offset : Z)
          (cp : option CCodecParams.t) (g : G).

Let args : InitArgs :=
  init_args target_url mode hw shm_name shm_size shm_offset
            (match cp with Some c => c | None => CCodecParams.default end).

(** The struct as [api_initFFIO] leaves it, which is what line 128 reads. *)
Let opened : Native G := fst (gw_initFFIO gw args (gw_newFFIO gw g)).

Let st : State G :=
  __init__ gw target_url mode hw shm_name shm_size shm_offset cp g.

Lemma init_success :
  CFFIO.ffio_state (contents opened) = 1 ->
  width (fst st) = Some (CFFIO.image_width (contents opened))
  /\ height (fst st) = Some (CFFIO.image_height (contents opened))
  /\ frame_seq_py (fst st) = 0
  /\ snd st = mk_world opened [Call_newFFIO; Call_initFFIO args].
Proof.
  subst st opened args. unfold __init__.
  destruct (gw_initFFIO gw _ (gw_newFFIO gw g)) as [n1 cp1]. cbn [fst].
  intros E. rewrite E. cbn. auto.
Qed.

(** When initialisation fails the handle is deleted, and [width] and
    [height] are never assigned. *)
Lemma init_failure :
  CFFIO.ffio_state (contents opened) <> 1 ->
  width (fst st) = None
  /\ height (fst st) = None
  /\ frame_seq_py (fst st) = 0
  /\ snd st = mk_world (gw_deleteFFIO gw opened)
                       [Call_newFFIO; Call_initFFIO args; Call_deleteFFIO].
Proof.
  subst st opened args. unfold __init__.
  destruct (gw_initFFIO gw _ (gw_newFFIO gw g)) as [n1 cp1]. cbn [fst].
  intros E. apply Z.eqb_neq in E. rewrite E. cbn. auto.
Qed.

End Init.

(** ** The library of the examples *)

Lemma Demo_counts_frames : counts_frames Demo.gw.
Proof.
  split.
  - intros [h c] Hc. cbn [contents] in Hc. simpl. unfold Demo.pull. simpl.
    destruct h as [|[] rest]; simpl;
      rewrite ?Z.add_0_r, ?(to_c_int_small _ Hc); reflexivity.
  - intros bs [h c] Hc. cbn [contents] in Hc. simpl. unfold Demo.push. simpl.
    destruct (Z.of_nat (List.length bs) =? CFFIO.image_byte_size c); simpl;
      rewrite ?Z.add_0_r, ?(to_c_int_small _ Hc); reflexivity.
Qed.

(** On the demo stream two calls of [decode_one_frame] leave both counters
    at 2, and the third returns the end-of-stream code. *)
Example decoder_two_frames :
  let st2 := run_calls [decode_one_frame Demo.gw Demo.store None;
                        decode_one_frame Demo.gw Demo.store (Some "numpy")]
                       Demo.decoder in
  frame_seq_py (fst st2) = 2 /\ frame_seq_c st2 = 2
  /\ value_of (decode_one_frame Demo.gw Demo.store None) st2 = Return (PyInt (-5)).
Proof. repeat split; reflexivity. Qed.

(** * The claims *)

(** ** C1: the two frame counters *)

(** C1, at a failing input.  The demo decoder is ready and its stream holds a
    frame; [decode_one_frame_to_shm(0)] returns [True] and the library counts
    the frame, but the local counter is still 0 after this one successful
    call.  The same happens with [encode_one_frame_from_shm(0)] on the demo
    encoder.  The sibling methods [decode_one_frame] and [encode_one_frame] do
    move the local counter (lemmas [decode_one_frame_counts] and
    [encode_one_frame_counts]). *)
Theorem C1_shm_success_leaves_local_counter :
  ffio_state Demo.decoder = true
  /\ frame_seq_py (fst Demo.decoder) = frame_seq_c Demo.decoder
  /\ value_of (decode_one_frame_to_shm Demo.gw 0) Demo.decoder = Return true
  /\ frame_seq_py (self_after (decode_one_frame_to_shm Demo.gw 0) Demo.decoder) = 0
  /\ frame_seq_c (state_after (decode_one_frame_to_shm Demo.gw 0) Demo.decoder) = 1
  /\ ffio_state Demo.encoder = true
  /\ value_of (encode_one_frame_from_shm Demo.gw 0) Demo.encoder = Return true
  /\ frame_seq_py (self_after (encode_one_frame_from_shm Demo.gw 0) Demo.encoder) = 0
  /\ frame_seq_c (state_after (encode_one_frame_from_shm Demo.gw 0) Demo.encoder) = 1.
Proof. repeat split; reflexivity. Qed.

(** ** C2: calls on a session that is not ready *)

(** C2, counterexample.  The released demo session is not ready, yet
    [decode_one_frame] and [encode_one_frame] both go to the library (the log
    grows) and return its answer as on a ready session: a frame, and [True]. *)
Lemma C2_released_session_reaches_library :
  ffio_state Demo.released = false
  /\ calls (world_after (decode_one_frame Demo.gw Demo.store None) Demo.released)
     <> calls (snd Demo.released)
  /\ value_of (decode_one_frame Demo.gw Demo.store None) Demo.released
     = Return (PyBytes Demo.frame1)
  /\ calls (world_after (encode_one_frame Demo.gw (PyBytes Demo.frame1)) Demo.released)
     <> calls (snd Demo.released)
  /\ value_of (encode_one_frame Demo.gw (PyBytes Demo.frame1)) Demo.released
     = Return true.
Proof.
  repeat split; try reflexivity; vm_compute; discriminate.
Qed.

(** C2, as amended.  No method looks at [ffio_state].  In every state, ready
    or not, [decode_one_frame] makes exactly one call into the library, and
    what it returns or raises, in every format, and what it does to the local
    counter are fixed by the answer of that call and by [width] and [height];
    [encode_one_frame] on [bytes] or on an array makes exactly one call into
    the library with the bytes, returns [True] exactly when the library
    returns 0 and moves the local counter exactly then; on any other object
    it returns [False] and calls nothing.  No call fails for want of
    readiness. *)
Theorem C2_no_readiness_check {G} (gw : Gateway G)
        (imencode_jpg : ndarray -> result (list byte))
        (fmt : option string) (rgb_image : py_value) (st : State G) :
  let decode := decode_one_frame gw imencode_jpg fmt in
  let encode := encode_one_frame gw rgb_image in
  calls (world_after decode st) = calls (snd st) ++ [Call_decodeOneFrame]
  /\ value_of decode st
     = match fst (gw_decodeOneFrame gw (native (snd st))) with
       | PyBytes frame =>
           presentation imencode_jpg fmt frame (width (fst st)) (height (fst st))
       | PyInt c => Return (PyInt (decode_code c))
       | _ => Return PyNone
       end
  /\ self_after decode st
     = match fst (gw_decodeOneFrame gw (native (snd st))) with
       | PyBytes _ => set_frame_seq_py (frame_seq_py (fst st) + 1) (fst st)
       | _ => fst st
       end
  /\ match rgb_image with
     | PyBytes bs =>
         calls (world_after encode st) = calls (snd st) ++ [Call_encodeOneFrame bs]
         /\ value_of encode st
            = Return (fst (gw_encodeOneFrame gw bs (native (snd st))) =? 0)
         /\ self_after encode st
            = if fst (gw_encodeOneFrame gw bs (native (snd st))) =? 0
              then set_frame_seq_py (frame_seq_py (fst st) + 1) (fst st)
              else fst st
     | PyNdarray a =>
         calls (world_after encode st)
         = calls (snd st) ++ [Call_encodeOneFrame (nd_data a)]
         /\ value_of encode st
            = Return (fst (gw_encodeOneFrame gw (nd_data a) (native (snd st))) =? 0)
         /\ self_after encode st
            = if fst (gw_encodeOneFrame gw (nd_data a) (native (snd st))) =? 0
              then set_frame_seq_py (frame_seq_py (fst st) + 1) (fst st)
              else fst st
     | _ => value_of encode st = Return false /\ state_after encode st = st
     end.
Proof.
  cbv zeta. destruct st as [s w].
  split; [apply decode_one_frame_calls|].
  split; [|split; [apply decode_one_frame_self|]].
  - unfold value_of. rewrite decode_one_frame_run. cbn [fst snd].
    destruct (fst (gw_decodeOneFrame gw (native w))); try reflexivity.
    cbv zeta. cbn [fst]. rewrite present_value. reflexivity.
  - destruct rgb_image; try (split; reflexivity);
      unfold value_of, world_after, self_after; cbn [encode_one_frame];
      unfold tobytes; rewrite encode_one_frame_bytes_run; cbn [fst snd];
      match goal with |- context [?c =? 0] => destruct (c =? 0) end;
      repeat split; reflexivity.
Qed.

(** ** C3: the integer codes of [decode_one_frame] *)

(** C3.  When the library answers with an integer code [c], the method
    returns an integer [v] with: [v = -5] exactly when [c = -5], [v = -4]
    exactly when [c = -4], and [v = 1] for every other [c]; [self] is left as
    it was. *)
Theorem C3_decode_integer_codes {G} (gw : Gateway G)
        (imencode_jpg : ndarray -> result (list byte))
        (fmt : option string) (st : State G) (c : Z) :
  fst (gw_decodeOneFrame gw (native (snd st))) = PyInt c ->
  exists v,
    value_of (decode_one_frame gw imencode_jpg fmt) st = Return (PyInt v)
    /\ (v = -5 <-> c = -5)
    /\ (v = -4 <-> c = -4)
    /\ (c <> -5 -> c <> -4 -> v = 1)
    /\ self_after (decode_one_frame gw imencode_jpg fmt) st = fst st.
Proof.
  intros Hc. destruct st as [s w]. exists (decode_code c).
  unfold value_of, self_after. rewrite decode_one_frame_run.
  cbn [fst snd] in *. rewrite Hc. cbn.
  destruct (decode_code_cases c) as [H5 [H4 H1]]. auto.
Qed.

Lemma C3_decode_integer_codes_witness :
  fst (gw_decodeOneFrame Demo.gw (native (snd Demo.mismatch))) = PyInt (-4)
  /\ exists v,
      value_of (decode_one_frame Demo.gw Demo.store (Some "numpy")) Demo.mismatch
      = Return (PyInt v)
      /\ (v = -5 <-> -4 = -5)
      /\ (v = -4 <-> -4 = -4)
      /\ (-4 <> -5 -> -4 <> -4 -> v = 1)
      /\ self_after (decode_one_frame Demo.gw Demo.store (Some "numpy")) Demo.mismatch
         = fst Demo.mismatch.
Proof.
  split; [reflexivity|].
  apply (C3_decode_integer_codes Demo.gw Demo.store (Some "numpy")
                                 Demo.mismatch (-4)).
  reflexivity.
Defined.

(** ** C4: [encode_one_frame] on [bytes] *)

(** C4.  On [bytes], when the library returns 0 the call returns [True] and
    the local counter has moved by exactly one; on any other code the call
    returns [False] and [self], the counter included, is as before. *)
Theorem C4_encode_bytes_counter {G} (gw : Gateway G) (bs : list byte)
        (st : State G) :
  let code := fst (gw_encodeOneFrame gw bs (native (snd st))) in
  let m := encode_one_frame gw (PyBytes bs) in
  if code =? 0
  then value_of m st = Return true
       /\ frame_seq_py (self_after m st) = frame_seq_py (fst st) + 1
  else value_of m st = Return false
       /\ self_after m st = fst st.
Proof.
  destruct st as [s w]. cbv zeta.
  unfold value_of, self_after. cbn [encode_one_frame].
  rewrite encode_one_frame_bytes_run. cbn [fst snd].
  destruct (fst (gw_encodeOneFrame gw bs (native w)) =? 0); split; reflexivity.
Qed.

(** ** C5: the size of the buffer given to [encode_one_frame] *)

(** C5, counterexample.  The session is 2x1, so a frame has 6 bytes; a buffer
    of one byte is handed to [api_encodeOneFrame] all the same, and as this
    library accepts it the call returns [True]. *)
Lemma C5_short_buffer_reaches_library :
  width (fst Demo.encoder_lenient) = Some 2
  /\ height (fst Demo.encoder_lenient) = Some 1
  /\ Z.of_nat (List.length [x01%byte]) <> 2 * 1 * 3
  /\ calls (world_after (encode_one_frame Demo.gw_lenient (PyBytes [x01%byte]))
                        Demo.encoder_lenient)
     = calls (snd Demo.encoder_lenient) ++ [Call_encodeOneFrame [x01%byte]]
  /\ value_of (encode_one_frame Demo.gw_lenient (PyBytes [x01%byte]))
              Demo.encoder_lenient
     = Return true.
Proof. repeat split; try reflexivity. vm_compute. discriminate. Qed.

(** C5, as amended.  [encode_one_frame] looks at the type of its argument
    only.  [bytes] of any length, and the serialisation of an array of any
    shape, are handed to [api_encodeOneFrame], and the call returns [True]
    exactly when the library returns 0; an object of any other type, a PIL
    image included, gives [False] without a call into the library. *)
Theorem C5_encode_checks_type_only {G} (gw : Gateway G) (rgb_image : py_value)
        (st : State G) :
  let m := encode_one_frame gw rgb_image in
  match rgb_image with
  | PyBytes bs =>
      calls (world_after m st) = calls (snd st) ++ [Call_encodeOneFrame bs]
      /\ value_of m st
         = Return (fst (gw_encodeOneFrame gw bs (native (snd st))) =? 0)
  | PyNdarray a =>
      calls (world_after m st)
      = calls (snd st) ++ [Call_encodeOneFrame (nd_data a)]
      /\ value_of m st
         = Return (fst (gw_encodeOneFrame gw (nd_data a) (native (snd st))) =? 0)
  | _ => value_of m st = Return false /\ state_after m st = st
  end.
Proof.
  destruct st as [s w]. cbv zeta.
  destruct rgb_image; try (split; reflexivity);
    unfold value_of, world_after; cbn [encode_one_frame]; unfold tobytes;
    rewrite encode_one_frame_bytes_run; cbn [fst snd];
    match goal with |- context [?c =? 0] => destruct (c =? 0) end;
    split; reflexivity.
Qed.

(** ** C6: [release_memory] called twice *)

(** C6, counterexample.  After two calls of [release_memory] on the demo
    decoder the handle has been handed to [api_deleteFFIO] twice, and the
    state after the second call is not the state after the first. *)
Lemma C6_release_twice_deletes_twice :
  let st1 := state_after (release_memory Demo.gw) Demo.decoder in
  let st2 := state_after (release_memory Demo.gw) st1 in
  deletes (snd st1) = 1%nat
  /\ deletes (snd st2) = 2%nat
  /\ double_free (snd st2)
  /\ st2 <> st1.
Proof.
  cbv zeta. repeat split.
  - unfold double_free. vm_compute. lia.
  - intros H.
    apply (f_equal (fun st => List.length (calls (snd st)))) in H.
    vm_compute in H. discriminate.
Qed.

(** C6, as amended.  The second call returns normally and leaves every
    attribute of [self] as the first call left it; but the wrapper keeps no
    record of the release, and the second call hands the same handle to
    [api_finalizeFFIO] and to [api_deleteFFIO] once more. *)
Theorem C6_release_twice {G} (gw : Gateway G) (st : State G) :
  let st1 := state_after (release_memory gw) st in
  let st2 := state_after (release_memory gw) st1 in
  value_of (release_memory gw) st1 = Return tt
  /\ fst st2 = fst st1
  /\ calls (snd st2) = calls (snd st1) ++ [Call_finalizeFFIO; Call_deleteFFIO]
  /\ deletes (snd st2) = S (deletes (snd st1)).
Proof.
  destruct st as [s w]. cbv zeta. unfold value_of, state_after.
  rewrite release_memory_run. cbn [fst snd].
  rewrite release_memory_run. cbn [fst snd calls].
  repeat split.
  unfold deletes. cbn [calls].
  rewrite !filter_app, !length_app. simpl. lia.
Qed.

(** ** C7: what [release_memory] changes *)

(** C7.  [release_memory] returns, and afterwards [width], [height] and
    [frame_seq_py] are 0 while [target_url], [mode], [shm_enabled] and
    [codec_params] are what they were. *)
Theorem C7_release_memory_resets {G} (gw : Gateway G) (st : State G) :
  let s' := self_after (release_memory gw) st in
  value_of (release_memory gw) st = Return tt
  /\ width s' = Some 0
  /\ height s' = Some 0
  /\ frame_seq_py s' = 0
  /\ target_url s' = target_url (fst st)
  /\ mode s' = mode (fst st)
  /\ shm_enabled s' = shm_enabled (fst st)
  /\ codec_params s' = codec_params (fst st).
Proof.
  destruct st as [s w]. cbv zeta. unfold value_of, self_after.
  rewrite release_memory_run. repeat split.
Qed.

(** ** C8: a session whose initialisation failed *)

(** C8, at a failing input.  Opening the empty locator fails (the struct does
    not hold state 1); the constructor deletes the handle, but it never
    assigns [width] and [height], so that reading either raises
    [AttributeError] instead of giving 0. *)
Theorem C8_failed_init_leaves_size_unbound :
  CFFIO.ffio_state (contents (native (snd Demo.failed))) <> 1
  /\ calls (snd Demo.failed)
     = [Call_newFFIO;
        Call_initFFIO (init_args "" 0 false None 0 0 CCodecParams.default);
        Call_deleteFFIO]
  /\ width (fst Demo.failed) = None
  /\ height (fst Demo.failed) = None
  /\ value_of (get_attr "width" width) Demo.failed = Raise (AttributeError "width")
  /\ value_of (get_attr "height" height) Demo.failed = Raise (AttributeError "height").
Proof. repeat split; try reflexivity. vm_compute. discriminate. Qed.

(** ** C9: the base64 format *)

(** C9.  Let the library hand back the bytes [bs].  Every call with the
    format ['base64'] that returns a value returns the base64 text of what the
    JPEG compressor makes of the [(height, width, 3)] array of [bs] with the
    first and third byte of every pixel exchanged; when the sizes are not
    negative, that array has [height*width*3] bytes.  On a frame of that size
    the call does return as soon as the compressor does.  The other three
    formats carry the bytes of [bs] in the order of the library. *)
Theorem C9_base64_reorders_channels {G} (gw : Gateway G)
        (imencode_jpg : ndarray -> result (list byte))
        (st : State G) (bs : list byte) :
  fst (gw_decodeOneFrame gw (native (snd st))) = PyBytes bs ->
  (forall v,
      value_of (decode_one_frame gw imencode_jpg (Some "base64")) st = Return v ->
      exists w h a jpg,
        width (fst st) = Some w /\ height (fst st) = Some h
        /\ np_reshape (np_frombuffer bs) [h; w; 3] = Return a
        /\ (0 <= w -> 0 <= h ->
            nd_shape a = [h; w; 3] /\ Z.of_nat (List.length bs) = h * w * 3)
        /\ imencode_jpg (mk_ndarray (nd_shape a) (swap_rb bs)) = Return jpg
        /\ v = PyStr (b64encode jpg))
  /\ (forall w h,
        width (fst st) = Some w -> height (fst st) = Some h ->
        0 < w -> 0 < h -> Z.of_nat (List.length bs) = h * w * 3 ->
        value_of (decode_one_frame gw imencode_jpg (Some "base64")) st
        = match imencode_jpg (mk_ndarray [h; w; 3] (swap_rb bs)) with
          | Return jpg => Return (PyStr (b64encode jpg))
          | Raise e => Raise e
          end)
  /\ value_of (decode_one_frame gw imencode_jpg None) st = Return (PyBytes bs)
  /\ (forall v,
        value_of (decode_one_frame gw imencode_jpg (Some "numpy")) st = Return v ->
        exists shape, v = PyNdarray (mk_ndarray shape bs))
  /\ (forall v,
        value_of (decode_one_frame gw imencode_jpg (Some "Image")) st = Return v ->
        exists size n, v = PyImage (mk_image "RGB" size (firstn n bs))).
Proof.
  intros Hbs. destruct st as [s wd].
  unfold value_of. rewrite !decode_one_frame_run. cbn [fst snd] in *.
  rewrite Hbs. cbv zeta. cbn [fst].
  set (s' := set_frame_seq_py (frame_seq_py s + 1) s).
  set (wd' := mk_world _ _).
  repeat split.
  - intros v Hv.
    destruct (present_base64_success imencode_jpg s' wd' bs v Hv)
      as (w & h & a & jpg & Hw & Hh & Ha & Hd & Hj & ->).
    exists w, h, a, jpg. repeat split; auto.
    + apply (np_reshape_known _ _ h w) in Ha; tauto.
    + apply (np_reshape_known _ _ h w) in Ha; tauto.
  - intros w h Hw Hh Hw0 Hh0 Hlen.
    apply (present_frame imencode_jpg s' wd' bs w h Hw Hh Hw0 Hh0 Hlen).
  - intros v Hv. apply (present_numpy_success imencode_jpg s' wd' bs v Hv).
  - intros v Hv. apply (present_Image_success imencode_jpg s' wd' bs v Hv).
Qed.

Lemma C9_base64_reorders_channels_witness :
  fst (gw_decodeOneFrame Demo.gw (native (snd Demo.decoder))) = PyBytes Demo.frame1
  /\ value_of (decode_one_frame Demo.gw Demo.store (Some "base64")) Demo.decoder
     = Return (PyStr "AwIBBgUE")
  /\ swap_rb Demo.frame1 = [x03; x02; x01; x06; x05; x04]%byte
  /\ b64encode [x03; x02; x01; x06; x05; x04]%byte = "AwIBBgUE"
  /\ value_of (decode_one_frame Demo.gw Demo.store None) Demo.decoder
     = Return (PyBytes Demo.frame1).
Proof.
  split; [reflexivity|].
  destruct (C9_base64_reorders_channels Demo.gw Demo.store Demo.decoder
              Demo.frame1 eq_refl) as (_ & Hsized & Hraw & _).
  split; [|split; [reflexivity | split; [reflexivity | exact Hraw]]].
  apply (Hsized 2 1); first [reflexivity | lia].
Defined.

(** ** C10: a format that is none of the four *)

(** C10.  When the library hands back bytes and the format is a string other
    than ['numpy'], ['Image'] and ['base64'], the local counter moves by one
    and the call returns [None]. *)
Theorem C10_unknown_format_returns_None {G} (gw : Gateway G)
        (imencode_jpg : ndarray -> result (list byte))
        (st : State G) (bs : list byte) (fmt : string) :
  fst (gw_decodeOneFrame gw (native (snd st))) = PyBytes bs ->
  fmt <> "numpy" -> fmt <> "Image" -> fmt <> "base64" ->
  value_of (decode_one_frame gw imencode_jpg (Some fmt)) st = Return PyNone
  /\ frame_seq_py (self_after (decode_one_frame gw imencode_jpg (Some fmt)) st)
     = frame_seq_py (fst st) + 1.
Proof.
  intros Hbs Hn Hi Hb. destruct st as [s w].
  unfold value_of, self_after. rewrite decode_one_frame_run.
  cbn [fst snd] in *. rewrite Hbs. cbv zeta. cbn [fst snd].
  split; [|reflexivity].
  unfold present.
  apply String.eqb_neq in Hn, Hi, Hb. rewrite Hn, Hi, Hb. reflexivity.
Qed.

Lemma C10_unknown_format_returns_None_witness :
  value_of (decode_one_frame Demo.gw Demo.store (Some "jpeg")) Demo.decoder
  = Return PyNone
  /\ frame_seq_py (self_after (decode_one_frame Demo.gw Demo.store (Some "jpeg"))
                              Demo.decoder)
     = frame_seq_py (fst Demo.decoder) + 1.
Proof.
  apply (C10_unknown_format_returns_None Demo.gw Demo.store Demo.decoder
                                         Demo.frame1 "jpeg");
    first [reflexivity | discriminate].
Defined.

(** * Further properties of the wrapper *)

(** ** The constructor *)

(** X1.  The constructor keeps the handle exactly when [api_initFFIO] leaves
    state 1 in the struct.  Then the session is ready, [width] and [height]
    are the sizes in the struct, and the log holds the two calls of the
    constructor.  In every other state, 2 included, the handle is deleted
    once and [width] and [height] stay unbound.  Either way the local counter
    is 0, [shm_enabled] tells whether a name was given, and [codec_params] is
    the structure as the library left it. *)
Theorem init_outcome {G} (gw : Gateway G) (url : string) (md : Z) (hw : bool)
        (shm_name : option string) (shm_size shm_offset : Z)
        (cp : option CCodecParams.t) (g : G) :
  let args := init_args url md hw shm_name shm_size shm_offset
                        (match cp with Some c => c | None => CCodecParams.default end) in
  let opened := fst (gw_initFFIO gw args (gw_newFFIO gw g)) in
  let st := __init__ gw url md hw shm_name shm_size shm_offset cp g in
  target_url (fst st) = url
  /\ mode (fst st) = md
  /\ frame_seq_py (fst st) = 0
  /\ shm_enabled (fst st) = match shm_name with Some _ => true | None => false end
  /\ shm_enabled (fst st) = ia_shm_enabled args
  /\ codec_params (fst st) = snd (gw_initFFIO gw args (gw_newFFIO gw g))
  /\ if CFFIO.ffio_state (contents opened) =? 1
     then width (fst st) = Some (CFFIO.image_width (contents opened))
          /\ height (fst st) = Some (CFFIO.image_height (contents opened))
          /\ snd st = mk_world opened [Call_newFFIO; Call_initFFIO args]
          /\ deletes (snd st) = 0%nat
          /\ ffio_state st = true
     else width (fst st) = None
          /\ height (fst st) = None
          /\ snd st = mk_world (gw_deleteFFIO gw opened)
                               [Call_newFFIO; Call_initFFIO args; Call_deleteFFIO]
          /\ deletes (snd st) = 1%nat.
Proof.
  cbv zeta. unfold __init__.
  destruct (gw_initFFIO gw _ (gw_newFFIO gw g)) as [n1 cp1] eqn:E. cbn [fst snd].
  destruct (Z.eqb_spec (CFFIO.ffio_state (contents n1)) 1) as [H1|H1];
    cbn [fst snd target_url mode frame_seq_py shm_enabled codec_params width height].
  - repeat split; try (destruct shm_name; reflexivity).
    unfold ffio_state. cbn [fst snd native]. rewrite H1. reflexivity.
  - repeat split; destruct shm_name; reflexivity.
Qed.

(** X12.  A session whose initialisation failed and that is then released
    has had its handle deleted twice: once by the constructor and once by
    [release_memory], which does not look at how the constructor ended.  After
    the release [width] and [height] are bound, to 0. *)
Theorem failed_init_then_release_deletes_twice {G} (gw : Gateway G)
        (url : string) (md : Z) (hw : bool)
        (shm_name : option string) (shm_size shm_offset : Z)
        (cp : option CCodecParams.t) (g : G) :
  let args := init_args url md hw shm_name shm_size shm_offset
                        (match cp with Some c => c | None => CCodecParams.default end) in
  let st := __init__ gw url md hw shm_name shm_size shm_offset cp g in
  let st' := state_after (release_memory gw) st in
  CFFIO.ffio_state (contents (fst (gw_initFFIO gw args (gw_newFFIO gw g)))) <> 1 ->
  calls (snd st')
  = [Call_newFFIO; Call_initFFIO args; Call_deleteFFIO;
     Call_finalizeFFIO; Call_deleteFFIO]
  /\ deletes (snd st') = 2%nat
  /\ double_free (snd st')
  /\ width (fst st) = None /\ width (fst st') = Some 0
  /\ height (fst st) = None /\ height (fst st') = Some 0.
Proof.
  cbv zeta. intros Hfail.
  destruct (init_failure gw url md hw shm_name shm_size shm_offset cp g Hfail)
    as (Hw & Hh & _ & Hworld).
  destruct (__init__ gw url md hw shm_name shm_size shm_offset cp g) as [s w].
  cbn [fst snd] in *. subst w.
  unfold state_after. rewrite release_memory_run. cbn [fst snd calls width height].
  unfold double_free, deletes. cbn. repeat split; auto.
Qed.

Lemma failed_init_then_release_deletes_twice_witness :
  CFFIO.ffio_state
    (contents (fst (gw_initFFIO Demo.gw
                      (init_args "" 0 false None 0 0 CCodecParams.default)
                      (gw_newFFIO Demo.gw [PyBytes Demo.frame1])))) <> 1
  /\ deletes (snd (state_after (release_memory Demo.gw) Demo.failed)) = 2%nat.
Proof.
  assert (H : CFFIO.ffio_state
                (contents (fst (gw_initFFIO Demo.gw
                                  (init_args "" 0 false None 0 0 CCodecParams.default)
                                  (gw_newFFIO Demo.gw [PyBytes Demo.frame1])))) <> 1).
  { vm_compute. discriminate. }
  split; [exact H|].
  exact (proj1 (proj2 (failed_init_then_release_deletes_twice
                         Demo.gw "" 0 false None 0 0 None [PyBytes Demo.frame1] H))).
Defined.

(** ** What [decode_one_frame] can return *)

(** The presentation of a frame is never an integer. *)
Lemma present_not_int {G} (imencode_jpg : ndarray -> result (list byte))
      (fmt : option string) (bs : list byte) (st : State G) (v : Z) :
  fst (present imencode_jpg fmt bs st) <> Return (PyInt v).
Proof.
  destruct st as [s wd]. unfold present, bind, get_attr, lift, ret.
  destruct fmt as [fmt|]; [|discriminate].
  destruct (fmt =? "numpy")%string; [|destruct (fmt =? "Image")%string;
    [|destruct (fmt =? "base64")%string; [|discriminate]]];
    cbn [fst snd].
  - destruct (height s) as [h|]; cbn [fst snd]; [|discriminate].
    destruct (width s) as [w|]; cbn [fst snd]; [|discriminate].
    destruct (np_reshape (np_frombuffer bs) [h; w; 3]); cbn [fst snd];
      discriminate.
  - destruct (width s) as [w|]; cbn [fst snd]; [|discriminate].
    destruct (height s) as [h|]; cbn [fst snd]; [|discriminate].
    destruct (Image_frombytes (w, h) bs); cbn [fst snd]; discriminate.
  - destruct (height s) as [h|]; cbn [fst snd]; [|discriminate].
    destruct (width s) as [w|]; cbn [fst snd]; [|discriminate].
    destruct (np_reshape (np_frombuffer bs) [h; w; 3]) as [a|]; cbn [fst snd];
      [|discriminate].
    destruct (cv2_cvtColor_RGB2BGR a) as [a'|]; cbn [fst snd]; [|discriminate].
    destruct (imencode_jpg a'); cbn [fst snd]; discriminate.
Qed.

(** X2.  An integer returned by [decode_one_frame] is -5, -4 or 1, whatever
    the library answered and whatever format was asked for; it comes from an
    integer answer of the library, and [self] is then as before. *)
Theorem decode_returns_three_codes {G} (gw : Gateway G)
        (imencode_jpg : ndarray -> result (list byte))
        (fmt : option string) (st : State G) (v : Z) :
  value_of (decode_one_frame gw imencode_jpg fmt) st = Return (PyInt v) ->
  (v = -5 \/ v = -4 \/ v = 1)
  /\ (exists c, fst (gw_decodeOneFrame gw (native (snd st))) = PyInt c
                /\ v = decode_code c)
  /\ self_after (decode_one_frame gw imencode_jpg fmt) st = fst st.
Proof.
  destruct st as [s w]. unfold value_of, self_after.
  rewrite decode_one_frame_run. cbn [fst snd].
  destruct (fst (gw_decodeOneFrame gw (native w))) as [| |c|bs| | | |];
    cbv zeta; cbn [fst snd]; try discriminate.
  - intros [= <-]. split; [|split; [eauto | reflexivity]].
    unfold decode_code.
    destruct (c =? -5); [auto|]. destruct (c =? -4); auto.
  - intros H. exfalso. exact (present_not_int _ _ _ _ _ H).
Qed.

Lemma decode_returns_three_codes_witness :
  value_of (decode_one_frame Demo.gw Demo.store (Some "base64")) Demo.mismatch
  = Return (PyInt (-4))
  /\ (-4 = -5 \/ -4 = -4 \/ -4 = 1).
Proof.
  split; [reflexivity|].
  exact (proj1 (decode_returns_three_codes Demo.gw Demo.store (Some "base64")
                  Demo.mismatch (-4) eq_refl)).
Defined.

(** X3.  When the library answers with an object that is neither [bytes] nor
    an [int] ([None], a [bool], a string, ...), [decode_one_frame] returns
    [None] in every format and [self] is as before; a [bool] is not taken for
    an integer code. *)
Theorem decode_other_answer_returns_None {G} (gw : Gateway G)
        (imencode_jpg : ndarray -> result (list byte))
        (fmt : option string) (st : State G) :
  match fst (gw_decodeOneFrame gw (native (snd st))) with
  | PyBytes _ | PyInt _ => False
  | _ => True
  end ->
  value_of (decode_one_frame gw imencode_jpg fmt) st = Return PyNone
  /\ self_after (decode_one_frame gw imencode_jpg fmt) st = fst st
  /\ calls (world_after (decode_one_frame gw imencode_jpg fmt) st)
     = calls (snd st) ++ [Call_decodeOneFrame].
Proof.
  destruct st as [s w]. unfold value_of, self_after, world_after.
  rewrite decode_one_frame_run. cbn [fst snd].
  destruct (fst (gw_decodeOneFrame gw (native w)));
    intros H; try contradiction; repeat split.
Qed.

Lemma decode_other_answer_returns_None_witness :
  fst (gw_decodeOneFrame Demo.gw (native (snd Demo.odd))) = PyBool true
  /\ value_of (decode_one_frame Demo.gw Demo.store (Some "numpy")) Demo.odd
     = Return PyNone.
Proof.
  split; [reflexivity|].
  exact (proj1 (decode_other_answer_returns_None Demo.gw Demo.store
                  (Some "numpy") Demo.odd I)).
Defined.

(** X4.  The local counter moves before the frame is presented.  On a session
    whose [width] and [height] are unbound, a frame from the library is
    returned as it is in the raw format, while ['numpy'] and ['base64'] raise
    [AttributeError] on [height] and ['Image'] on [width], the attribute each
    of them reads first; in all four cases the counter has moved by one. *)
Theorem decode_on_unbound_size {G} (gw : Gateway G)
        (imencode_jpg : ndarray -> result (list byte))
        (st : State G) (bs : list byte) :
  fst (gw_decodeOneFrame gw (native (snd st))) = PyBytes bs ->
  width (fst st) = None -> height (fst st) = None ->
  value_of (decode_one_frame gw imencode_jpg None) st = Return (PyBytes bs)
  /\ value_of (decode_one_frame gw imencode_jpg (Some "numpy")) st
     = Raise (AttributeError "height")
  /\ value_of (decode_one_frame gw imencode_jpg (Some "Image")) st
     = Raise (AttributeError "width")
  /\ value_of (decode_one_frame gw imencode_jpg (Some "base64")) st
     = Raise (AttributeError "height")
  /\ forall fmt,
      frame_seq_py (self_after (decode_one_frame gw imencode_jpg fmt) st)
      = frame_seq_py (fst st) + 1.
Proof.
  intros Hbs Hw Hh. destruct st as [s w].
  unfold value_of. rewrite !decode_one_frame_run. cbn [fst snd] in *.
  rewrite Hbs. cbv zeta.
  unfold present, bind, get_attr, lift, ret.
  cbn [fst snd String.eqb Ascii.eqb Bool.eqb width height set_frame_seq_py].
  rewrite Hw, Hh. repeat split.
  intros fmt. rewrite decode_one_frame_self. cbn [fst snd]. rewrite Hbs.
  reflexivity.
Qed.

Lemma decode_on_unbound_size_witness :
  value_of (decode_one_frame Demo.gw Demo.store (Some "numpy")) Demo.failed
  = Raise (AttributeError "height")
  /\ frame_seq_py (self_after (decode_one_frame Demo.gw Demo.store (Some "numpy"))
                              Demo.failed) = 0 + 1.
Proof.
  destruct (decode_on_unbound_size Demo.gw Demo.store Demo.failed Demo.frame1
              eq_refl eq_refl eq_refl) as (_ & Hnp & _ & _ & Hcnt).
  split; [exact Hnp | exact (Hcnt (Some "numpy"))].
Defined.

(** A reshape to sizes that are not negative succeeds on the matching length
    only. *)
Lemma np_reshape_exact (bs : list byte) (h w : Z) :
  0 <= h -> 0 <= w ->
  np_reshape (np_frombuffer bs) [h; w; 3]
  = if Z.of_nat (List.length bs) =? h * w * 3
    then Return (mk_ndarray [h; w; 3] bs) else Raise ValueError.
Proof.
  intros Hh Hw.
  destruct (Z.eqb_spec (Z.of_nat (List.length bs)) (h * w * 3)) as [E|E].
  - apply np_reshape_frame; assumption.
  - unfold np_reshape, count_unknown, prod_known, np_frombuffer; simpl.
    destruct (Z.ltb_spec h 0); [lia|].
    destruct (Z.ltb_spec w 0); [lia|]. simpl.
    destruct (Z.eqb_spec (Z.of_nat (List.length bs)) (h * (w * 3)));
      [lia | reflexivity].
Qed.

Lemma Image_frombytes_sized (bs : list byte) (w h : Z) :
  0 < w -> 0 < h ->
  Image_frombytes (w, h) bs
  = if Z.of_nat (List.length bs) <? w * h * 3 then Raise ValueError
    else Return (mk_image "RGB" (w, h) (firstn (Z.to_nat (w * h * 3)) bs)).
Proof.
  intros Hw Hh. unfold Image_frombytes.
  destruct (Z.ltb_spec w 0); [lia|].
  destruct (Z.ltb_spec h 0); [lia|].
  destruct (Z.eqb_spec w 0); [lia|].
  destruct (Z.eqb_spec h 0); [lia|].
  reflexivity.
Qed.

Lemma present_checks_size {G} (imencode_jpg : ndarray -> result (list byte))
      (s : FFIO) (wd : World G) (bs : list byte) (w h : Z) :
  width s = Some w -> height s = Some h -> 0 <= w -> 0 <= h ->
  fst (present imencode_jpg (Some "numpy") bs (s, wd))
  = (if Z.of_nat (List.length bs) =? h * w * 3
     then Return (PyNdarray (mk_ndarray [h; w; 3] bs))
     else Raise ValueError)
  /\ (Z.of_nat (List.length bs) <> h * w * 3 ->
      fst (present imencode_jpg (Some "base64") bs (s, wd)) = Raise ValueError)
  /\ (0 < w -> 0 < h ->
      fst (present imencode_jpg (Some "Image") bs (s, wd))
      = if Z.of_nat (List.length bs) <? w * h * 3 then Raise ValueError
        else Return (PyImage (mk_image "RGB" (w, h)
                                       (firstn (Z.to_nat (w * h * 3)) bs)))).
Proof.
  intros Hw Hh Hw0 Hh0.
  rewrite !present_value, Hw, Hh. unfold presentation.
  cbn [String.eqb Ascii.eqb Bool.eqb].
  rewrite (np_reshape_exact bs h w Hh0 Hw0).
  split; [|split].
  - destruct (_ =? _); reflexivity.
  - intros Hne. apply Z.eqb_neq in Hne. rewrite Hne. reflexivity.
  - intros Hwp Hhp. rewrite (Image_frombytes_sized bs w h Hwp Hhp).
    destruct (_ <? _); reflexivity.
Qed.

(** X5.  [decode_one_frame] compares no lengths itself; what becomes of a
    frame whose length is not that of the session depends on the format.  On
    a session of size [w] x [h] (neither negative), ['numpy'] returns the
    [h] x [w] x 3 array of the bytes when the library handed back exactly
    [h*w*3] of them and raises [ValueError] on any other length, and
    ['base64'] raises [ValueError] on any other length too.  With both sizes
    positive, ['Image'] raises [ValueError] on fewer than [w*h*3] bytes and
    takes more, keeping the first [w*h*3].  The raw format returns the bytes
    whatever their length, and the counter moves in every case. *)
Theorem decode_size_checks {G} (gw : Gateway G)
        (imencode_jpg : ndarray -> result (list byte))
        (st : State G) (bs : list byte) (w h : Z) :
  fst (gw_decodeOneFrame gw (native (snd st))) = PyBytes bs ->
  width (fst st) = Some w -> height (fst st) = Some h ->
  0 <= w -> 0 <= h ->
  value_of (decode_one_frame gw imencode_jpg (Some "numpy")) st
  = (if Z.of_nat (List.length bs) =? h * w * 3
     then Return (PyNdarray (mk_ndarray [h; w; 3] bs))
     else Raise ValueError)
  /\ (Z.of_nat (List.length bs) <> h * w * 3 ->
      value_of (decode_one_frame gw imencode_jpg (Some "base64")) st
      = Raise ValueError)
  /\ (0 < w -> 0 < h ->
      value_of (decode_one_frame gw imencode_jpg (Some "Image")) st
      = if Z.of_nat (List.length bs) <? w * h * 3 then Raise ValueError
        else Return (PyImage (mk_image "RGB" (w, h)
                                       (firstn (Z.to_nat (w * h * 3)) bs))))
  /\ value_of (decode_one_frame gw imencode_jpg None) st = Return (PyBytes bs)
  /\ forall fmt,
      frame_seq_py (self_after (decode_one_frame gw imencode_jpg fmt) st)
      = frame_seq_py (fst st) + 1.
Proof.
  intros Hbs Hw Hh Hw0 Hh0. destruct st as [s wd].
  unfold value_of. rewrite !decode_one_frame_run. cbn [fst snd] in *.
  rewrite Hbs. cbv zeta. cbn [fst].
  destruct (present_checks_size imencode_jpg
              (set_frame_seq_py (frame_seq_py s + 1) s)
              (mk_world (snd (gw_decodeOneFrame gw (native wd)))
                        (calls wd ++ [Call_decodeOneFrame]))
              bs w h Hw Hh Hw0 Hh0) as (Hnp & Hb64 & Him).
  repeat split; auto.
  intros fmt. rewrite decode_one_frame_self. cbn [fst snd]. rewrite Hbs.
  reflexivity.
Qed.

Lemma decode_size_checks_witness :
  value_of (decode_one_frame Demo.gw Demo.store (Some "numpy")) Demo.long
  = Raise ValueError
  /\ value_of (decode_one_frame Demo.gw Demo.store (Some "base64")) Demo.long
     = Raise ValueError
  /\ value_of (decode_one_frame Demo.gw Demo.store (Some "Image")) Demo.long
     = Return (PyImage (mk_image "RGB" (2, 1) Demo.frame1))
  /\ value_of (decode_one_frame Demo.gw Demo.store None) Demo.long
     = Return (PyBytes (Demo.frame1 ++ [x07; x08; x09]%byte)).
Proof.
  destruct (decode_size_checks Demo.gw Demo.store Demo.long
              (Demo.frame1 ++ [x07; x08; x09]%byte) 2 1 eq_refl eq_refl eq_refl)
    as (Hnp & Hb64 & Him & Hraw & _); [lia | lia |].
  split; [exact Hnp | split; [|split; [|exact Hraw]]].
  - apply Hb64. vm_compute. discriminate.
  - apply Him; reflexivity.
Defined.

(** A frame that is too short is refused in all three formats. *)
Example decode_short_frame :
  value_of (decode_one_frame Demo.gw Demo.store (Some "numpy")) Demo.short
  = Raise ValueError
  /\ value_of (decode_one_frame Demo.gw Demo.store (Some "base64")) Demo.short
     = Raise ValueError
  /\ value_of (decode_one_frame Demo.gw Demo.store (Some "Image")) Demo.short
     = Raise ValueError
  /\ value_of (decode_one_frame Demo.gw Demo.store None) Demo.short
     = Return (PyBytes [x01%byte]).
Proof. repeat split; reflexivity. Qed.

(** ** Sequences of frame calls *)

Section Sequences.

Context {G : Type} (gw : Gateway G).
Variable imencode_jpg : ndarray -> result (list byte).

Local Abbreviation step := (run_op gw imencode_jpg).
Local Abbreviation steps := (run_ops gw imencode_jpg).

Lemma encode_one_frame_state (rgb_image : py_value) (s : FFIO) (w : World G) :
  state_after (encode_one_frame gw rgb_image) (s, w)
  = match op_calls (Encode rgb_image) with
    | Call_encodeOneFrame bs :: _ =>
        (if fst (gw_encodeOneFrame gw bs (native w)) =? 0
         then set_frame_seq_py (frame_seq_py s + 1) s else s,
         mk_world (snd (gw_encodeOneFrame gw bs (native w)))
                  (calls w ++ [Call_encodeOneFrame bs]))
    | _ => (s, w)
    end.
Proof.
  unfold state_after.
  destruct rgb_image; try reflexivity;
    cbn [encode_one_frame op_calls]; rewrite encode_one_frame_bytes_run;
    cbv zeta;
    match goal with |- context [?c =? 0] => destruct (c =? 0) end;
    reflexivity.
Qed.

Lemma run_op_calls (o : Op) (st : State G) :
  calls (snd (step o st)) = calls (snd st) ++ op_calls o.
Proof.
  destruct st as [s w]. destruct o as [fmt|offset|rgb|offset]; cbn [run_op].
  - apply (decode_one_frame_calls gw imencode_jpg fmt (s, w)).
  - unfold state_after. py_unfold. cbn.
    destruct (gw_decodeOneFrameToShm gw (to_c_int offset) (native w)).
    reflexivity.
  - rewrite encode_one_frame_state.
    destruct rgb; cbn; try (symmetry; apply app_nil_r); reflexivity.
  - unfold state_after. py_unfold. cbn.
    destruct (gw_encodeOneFrameFromShm gw (to_c_int offset) (native w)).
    reflexivity.
Qed.

Lemma run_op_self (o : Op) (st : State G) :
  same_but_counter (fst st) (fst (step o st))
  /\ frame_seq_py (fst st) <= frame_seq_py (fst (step o st))
     <= frame_seq_py (fst st) + (if is_shm_op o then 0 else 1).
Proof.
  destruct st as [s w]. destruct o as [fmt|offset|rgb|offset]; cbn [run_op is_shm_op].
  - change (fst (state_after (decode_one_frame gw imencode_jpg fmt) (s, w)))
      with (self_after (decode_one_frame gw imencode_jpg fmt) (s, w)).
    rewrite decode_one_frame_self. cbn [fst snd].
    destruct (fst (gw_decodeOneFrame gw (native w)));
      unfold same_but_counter; cbn; repeat split; lia.
  - change (fst (state_after (decode_one_frame_to_shm gw offset) (s, w)))
      with (self_after (decode_one_frame_to_shm gw offset) (s, w)).
    rewrite (proj1 (decode_one_frame_to_shm_run gw offset (s, w))).
    unfold same_but_counter; cbn; repeat split; lia.
  - rewrite encode_one_frame_state.
    destruct (op_calls (Encode rgb)) as [|[] ?];
      try (unfold same_but_counter; cbn; repeat split; lia).
    destruct (_ =? 0); unfold same_but_counter; cbn; repeat split; lia.
  - change (fst (state_after (encode_one_frame_from_shm gw offset) (s, w)))
      with (self_after (encode_one_frame_from_shm gw offset) (s, w)).
    rewrite (proj1 (encode_one_frame_from_shm_run gw offset (s, w))).
    unfold same_but_counter; cbn; repeat split; lia.
Qed.

Lemma run_op_keeps_counters_equal (o : Op) (st : State G) :
  counts_frames gw -> is_shm_op o = false ->
  frame_seq_c st = to_c_int (frame_seq_py (fst st)) ->
  frame_seq_c (step o st) = to_c_int (frame_seq_py (fst (step o st))).
Proof.
  intros Hgw Hplain Heq. destruct o as [fmt|offset|rgb|offset];
    try discriminate; cbn [run_op].
  - apply (decode_one_frame_keeps_counters_equal gw imencode_jpg fmt st Hgw Heq).
  - destruct st as [s w]. rewrite encode_one_frame_state.
    destruct (op_calls (Encode rgb)) as [|[] ?]; try exact Heq.
    apply (encode_one_frame_keeps_counters_equal gw rgb0 (s, w) Hgw) in Heq.
    unfold state_after, self_after in Heq. cbn [encode_one_frame] in Heq.
    rewrite encode_one_frame_bytes_run in Heq. cbv zeta in Heq.
    destruct (fst (gw_encodeOneFrame gw rgb0 (native w)) =? 0); exact Heq.
Qed.

Lemma op_calls_no_delete (ops : list Op) :
  filter is_delete (flat_map op_calls ops) = [].
Proof.
  induction ops as [|o ops IH]; [reflexivity|].
  cbn [flat_map]. rewrite filter_app, IH, app_nil_r.
  destruct o as [?|?|[]|?]; reflexivity.
Qed.

Lemma run_ops_calls (ops : list Op) (st : State G) :
  calls (snd (steps ops st)) = calls (snd st) ++ flat_map op_calls ops.
Proof.
  revert st. induction ops as [|o ops IH]; intros st.
  - cbn. now rewrite app_nil_r.
  - cbn [run_ops fold_left flat_map].
    change (fold_left (fun acc o0 => step o0 acc) ops (step o st))
      with (steps ops (step o st)).
    rewrite IH, run_op_calls, app_assoc. reflexivity.
Qed.

(** X6.  The native calls made by a sequence of frame calls are fixed by the
    sequence alone: each [decode_one_frame], each shared-memory call and each
    [encode_one_frame] on [bytes] or an array is exactly one call into the
    library, in the caller's order, whatever the earlier calls returned (end
    of stream and failures included); [encode_one_frame] on anything else is
    none.  The handle is never finalized or deleted on the way. *)
Theorem frame_calls_log (ops : list Op) (st : State G) :
  calls (snd (steps ops st)) = calls (snd st) ++ flat_map op_calls ops
  /\ deletes (snd (steps ops st)) = deletes (snd st).
Proof.
  split; [apply run_ops_calls|].
  unfold deletes.
  rewrite run_ops_calls, filter_app, op_calls_no_delete, app_nil_r.
  reflexivity.
Qed.

(** X7.  A sequence of frame calls changes nothing of [self] but the local
    counter, which never goes down and goes up by at most one for each call
    of [decode_one_frame] or [encode_one_frame], and not at all for the
    shared-memory calls. *)
Theorem frame_calls_change_counter_only (ops : list Op) (st : State G) :
  same_but_counter (fst st) (fst (steps ops st))
  /\ frame_seq_py (fst st) <= frame_seq_py (fst (steps ops st))
     <= frame_seq_py (fst st) + Z.of_nat (count_plain ops).
Proof.
  revert st. induction ops as [|o ops IH]; intros st.
  - unfold same_but_counter, count_plain. cbn. repeat split; lia.
  - cbn [run_ops fold_left].
    change (fold_left (fun acc o0 => step o0 acc) ops (step o st))
      with (steps ops (step o st)).
    destruct (IH (step o st)) as [(T & M & S & W & H & C) [Hlo Hhi]].
    destruct (run_op_self o st) as [(T0 & M0 & S0 & W0 & H0 & C0) [Hlo0 Hhi0]].
    split.
    + unfold same_but_counter. repeat split; congruence.
    + unfold count_plain in *. cbn [filter].
      destruct (is_shm_op o); cbn [negb List.length] in *; lia.
Qed.

(** X8.  With a library that counts the frames it decodes and encodes in the
    [c_int] field [frame_seq], and a session whose native counter is the
    local counter as a C [int], any sequence of [decode_one_frame] and
    [encode_one_frame] calls, successful or not, keeps it so.  The two
    counters are therefore equal for as long as the local one, a Python int
    without bound, is below 2^31; when it reaches 2^31 the native counter
    reads -2^31. *)
Theorem plain_calls_keep_counters_equal (ops : list Op) (st : State G) :
  counts_frames gw ->
  forallb (fun o => negb (is_shm_op o)) ops = true ->
  frame_seq_c st = to_c_int (frame_seq_py (fst st)) ->
  frame_seq_c (steps ops st) = to_c_int (frame_seq_py (fst (steps ops st)))
  /\ (in_c_int (frame_seq_py (fst (steps ops st))) ->
      frame_seq_py (fst (steps ops st)) = frame_seq_c (steps ops st))
  /\ (frame_seq_py (fst (steps ops st)) = 2 ^ 31 ->
      frame_seq_c (steps ops st) = - 2 ^ 31).
Proof.
  intros Hgw Hplain Heq.
  assert (Hinv : frame_seq_c (steps ops st)
                 = to_c_int (frame_seq_py (fst (steps ops st)))).
  { revert st Hplain Heq. induction ops as [|o ops IH]; intros st Hplain Heq.
    - exact Heq.
    - cbn [forallb] in Hplain. apply andb_prop in Hplain.
      destruct Hplain as [Ho Hops]. apply negb_true_iff in Ho.
      cbn [run_ops fold_left].
      change (fold_left (fun acc o0 => step o0 acc) ops (step o st))
        with (steps ops (step o st)).
      apply IH; [assumption|].
      apply run_op_keeps_counters_equal; assumption. }
  split; [exact Hinv|]. split.
  - intros Hin. rewrite Hinv. symmetry. apply to_c_int_small. exact Hin.
  - intros Hmax. rewrite Hinv, Hmax. reflexivity.
Qed.

End Sequences.

Lemma plain_calls_keep_counters_equal_witness :
  counts_frames Demo.gw
  /\ forallb (fun o => negb (is_shm_op o)) [Decode None] = true
  /\ frame_seq_c Demo.at_limit = to_c_int (frame_seq_py (fst Demo.at_limit))
  /\ frame_seq_py (fst Demo.at_limit) = frame_seq_c Demo.at_limit
  /\ frame_seq_py (fst (run_ops Demo.gw Demo.store [Decode None] Demo.at_limit))
     = 2147483648
  /\ frame_seq_c (run_ops Demo.gw Demo.store [Decode None] Demo.at_limit)
     = - 2147483648.
Proof.
  split; [exact Demo_counts_frames|].
  split; [reflexivity|]. split; [reflexivity|]. split; [reflexivity|].
  split; [reflexivity|].
  apply (plain_calls_keep_counters_equal Demo.gw Demo.store [Decode None]
           Demo.at_limit Demo_counts_frames eq_refl eq_refl).
  reflexivity.
Defined.

Lemma decode_one_frame_counts_witness :
  let fmts := [None; Some "Image"] in
  all_succeed is_frame (map (decode_one_frame Demo.gw Demo.store) fmts) Demo.decoder
  = true
  /\ frame_seq_py
       (fst (run_calls (map (decode_one_frame Demo.gw Demo.store) fmts) Demo.decoder))
     = frame_seq_py (fst Demo.decoder) + 2.
Proof.
  cbv zeta. split; [reflexivity|].
  apply (decode_one_frame_counts Demo.gw Demo.store [None; Some "Image"]
                                 Demo.decoder).
  reflexivity.
Defined.

Lemma encode_one_frame_counts_witness :
  let frames := [Demo.frame1; Demo.frame2; Demo.frame1] in
  all_succeed is_true
    (map (fun bs => encode_one_frame Demo.gw (PyBytes bs)) frames) Demo.encoder
  = true
  /\ frame_seq_py
       (fst (run_calls (map (fun bs => encode_one_frame Demo.gw (PyBytes bs)) frames)
                       Demo.encoder))
     = frame_seq_py (fst Demo.encoder) + 3.
Proof.
  cbv zeta. split; [reflexivity|].
  apply (encode_one_frame_counts Demo.gw
           [Demo.frame1; Demo.frame2; Demo.frame1] Demo.encoder).
  reflexivity.
Defined.

(** ** Offsets into shared memory *)

(** X11.  The offset of the two shared-memory calls reaches the library as a
    C [int].  An offset within the range of [int] is handed over as it is; the
    call returns the library's answer for that offset and leaves [self] alone.
    An offset that differs from it by a multiple of 2^32 makes the very same
    call. *)
Theorem shm_offset_is_c_int {G} (gw : Gateway G) (offset k : Z) (st : State G) :
  - 2 ^ 31 <= offset < 2 ^ 31 ->
  decode_one_frame_to_shm gw (offset + k * 2 ^ 32) st
  = (Return (fst (gw_decodeOneFrameToShm gw offset (native (snd st)))),
     (fst st,
      mk_world (snd (gw_decodeOneFrameToShm gw offset (native (snd st))))
               (calls (snd st) ++ [Call_decodeOneFrameToShm offset])))
  /\ encode_one_frame_from_shm gw (offset + k * 2 ^ 32) st
     = (Return (fst (gw_encodeOneFrameFromShm gw offset (native (snd st)))),
        (fst st,
         mk_world (snd (gw_encodeOneFrameFromShm gw offset (native (snd st))))
                  (calls (snd st) ++ [Call_encodeOneFrameFromShm offset]))).
Proof.
  intros Hrange. destruct st as [s w].
  unfold decode_one_frame_to_shm, encode_one_frame_from_shm,
    api_decodeOneFrameToShm, api_encodeOneFrameFromShm, native_call.
  rewrite to_c_int_period, (to_c_int_small offset Hrange). cbn [fst snd].
  destruct (gw_decodeOneFrameToShm gw offset (native w)).
  destruct (gw_encodeOneFrameFromShm gw offset (native w)).
  split; reflexivity.
Qed.

Lemma shm_offset_is_c_int_witness :
  - 2 ^ 31 <= 6 < 2 ^ 31
  /\ value_of (decode_one_frame_to_shm Demo.gw (6 + 1 * 2 ^ 32)) Demo.decoder
     = value_of (decode_one_frame_to_shm Demo.gw 6) Demo.decoder
  /\ calls (world_after (decode_one_frame_to_shm Demo.gw (6 + 1 * 2 ^ 32)) Demo.decoder)
     = calls (snd Demo.decoder) ++ [Call_decodeOneFrameToShm 6].
Proof.
  assert (H : - 2 ^ 31 <= 6 < 2 ^ 31) by (split; [discriminate | reflexivity]).
  split; [exact H|].
  unfold value_of, world_after.
  rewrite (proj1 (shm_offset_is_c_int Demo.gw 6 1 Demo.decoder H)).
  split; reflexivity.
Defined.

(** ** A whole life of a session *)

(** X13.  A session that was opened with success, used for any sequence of
    frame calls and released once has made these native calls and no other:
    the two of the constructor, those of the frame calls, then
    [api_finalizeFFIO] and [api_deleteFFIO].  The handle was deleted exactly
    once, after everything else, and the session ends with [width], [height]
    and the local counter at 0. *)
Theorem session_life_deletes_once {G} (gw : Gateway G)
        (imencode_jpg : ndarray -> result (list byte))
        (url : string) (md : Z) (hw : bool)
        (shm_name : option string) (shm_size shm_offset : Z)
        (cp : option CCodecParams.t) (g : G) (ops : list Op) :
  let args := init_args url md hw shm_name shm_size shm_offset
                        (match cp with Some c => c | None => CCodecParams.default end) in
  let st := __init__ gw url md hw shm_name shm_size shm_offset cp g in
  let st' := state_after (release_memory gw) (run_ops gw imencode_jpg ops st) in
  CFFIO.ffio_state (contents (fst (gw_initFFIO gw args (gw_newFFIO gw g)))) = 1 ->
  calls (snd st')
  = [Call_newFFIO; Call_initFFIO args] ++ flat_map op_calls ops
    ++ [Call_finalizeFFIO; Call_deleteFFIO]
  /\ deletes (snd st') = 1%nat
  /\ ~ double_free (snd st')
  /\ width (fst st') = Some 0
  /\ height (fst st') = Some 0
  /\ frame_seq_py (fst st') = 0.
Proof.
  cbv zeta. intros Hok.
  destruct (init_success gw url md hw shm_name shm_size shm_offset cp g Hok)
    as (_ & _ & _ & Hworld).
  pose proof (run_ops_calls gw imencode_jpg ops
                (__init__ gw url md hw shm_name shm_size shm_offset cp g)) as Hlog.
  rewrite Hworld in Hlog. cbn [calls] in Hlog.
  destruct (run_ops gw imencode_jpg ops _) as [s w]. cbn [snd] in Hlog.
  unfold state_after. rewrite release_memory_run.
  cbn [fst snd calls width height frame_seq_py].
  assert (Hdel : deletes
                   (mk_world (gw_deleteFFIO gw (gw_finalizeFFIO gw (native w)))
                             (calls w ++ [Call_finalizeFFIO; Call_deleteFFIO]))
                 = 1%nat).
  { unfold deletes. cbn [calls]. rewrite Hlog, !filter_app, op_calls_no_delete.
    reflexivity. }
  repeat split.
  - rewrite Hlog, <- app_assoc. reflexivity.
  - exact Hdel.
  - unfold double_free. rewrite Hdel. lia.
Qed.

Lemma session_life_deletes_once_witness :
  CFFIO.ffio_state
    (contents (fst (gw_initFFIO Demo.gw
                      (init_args "a.mp4" 0 false None 0 0 CCodecParams.default)
                      (gw_newFFIO Demo.gw [PyBytes Demo.frame1; PyBytes Demo.frame2]))))
  = 1
  /\ deletes (snd (state_after (release_memory Demo.gw)
                     (run_ops Demo.gw Demo.store
                              [Decode None; DecodeToShm 0; Decode None]
                              Demo.decoder))) = 1%nat.
Proof.
  split; [reflexivity|].
  exact (proj1 (proj2 (session_life_deletes_once Demo.gw Demo.store
                         "a.mp4" 0 false None 0 0 None
                         [PyBytes Demo.frame1; PyBytes Demo.frame2]
                         [Decode None; DecodeToShm 0; Decode None] eq_refl))).
Defined.
